(** * BoxFilter: validity filter for bounding-box labels

    Shallow embedding of [utils/boxes_validation_utils.py] and the
    properties its specification states about it.

    Numbers (Python numbers and the finite elements of arrays) are
    rationals [Q] and their comparisons are exact; the arithmetic is that
    of the run, an [Arith]: numpy computes in the dtype of the table, where
    a floating-point result is rounded and a result in a fixed-width
    integer dtype wraps around. A Python exception is a value of [PyErr]
    carried by [result]; numpy arrays are objects that live in a
    [Store]. *)

From Stdlib Require Import QArith Qround Lqa.
From stdpp Require Import gmap strings list.

Open Scope Q_scope.

(** ** Python exceptions and fallible computations *)

Inductive PyErr : Type :=
  | ValueError
  | TypeError
  | IndexError
  | KeyError
  | UnboundLocalError.

Inductive result (A : Type) : Type :=
  | Ok (a : A)
  | Raise (e : PyErr).

Arguments Ok {A} a.
Arguments Raise {A} e.

#[global] Instance result_ret : MRet result := fun _ a => Ok a.
#[global] Instance result_bind : MBind result := fun _ _ k r =>
  match r with
  | Ok a => k a
  | Raise e => Raise e
  end.

#[global] Instance result_fmap : FMap result := fun _ _ f r =>
  match r with
  | Ok a => Ok (f a)
  | Raise e => Raise e
  end.

(** ** Comparisons of numpy scalars *)

Definition Qgtb (a b : Q) : bool := negb (Qle_bool a b).
Definition Qgeb (a b : Q) : bool := Qle_bool b a.

(** [np.maximum], [np.minimum] on scalars. *)
Definition np_maximum (a b : Q) : Q := if Qle_bool a b then b else a.
Definition np_minimum (a b : Q) : Q := if Qle_bool a b then a else b.

(** The number [np.clip(v, a_min, a_max)] stands for,
    [np.minimum(a_max, np.maximum(v, a_min))]. *)
Definition clip1 (a_min a_max : Q) (v : Q) : Q :=
  np_minimum a_max (np_maximum v a_min).

(** ** The arithmetic of a run

    Every arithmetic operator of the source is an operation of the
    arithmetic of the run: a function of its operands, which gives the
    exact result only where the dtype of the table can hold it. The
    operations on arrays work element by element. *)

Record Arith : Type := mkArith {
  (** [a - b], [a + b] and [a * b] on two arrays of the table's dtype *)
  arr_sub : Q -> Q -> Q;
  arr_add : Q -> Q -> Q;
  arr_mul : Q -> Q -> Q;
  (** [a + d] and [a / c] on an array [a] and a Python number *)
  arr_add_scalar : Q -> Q -> Q;
  arr_div_scalar : Q -> Q -> Q;
  (** [c * a] on a Python number [c] and an array [a] *)
  scalar_mul_arr : Q -> Q -> Q;
  (** [np.clip(a, a_min, a_max)], as stored into an array of the table's
      dtype; the arguments are [a_min], [a_max] and the element of [a] *)
  arr_clip : Q -> Q -> Q -> Q;
  (** [x - y] on two Python numbers *)
  py_sub : Q -> Q -> Q
}.

(** The arithmetic without rounding and without bounds: that of every
    dtype as long as it can hold the operands and the results. *)
Definition exact_arith : Arith :=
  mkArith Qminus Qplus Qmult Qplus Qdiv Qmult clip1 Qminus.



(** ** numpy values

    A label table is a two-dimensional array of shape [(m, n)]: [ncols]
    is [n] and [rows] holds the [m] rows, each of [n] numbers. *)

Record Labels : Type := mkLabels {
  ncols : nat;
  rows : list (list Q)
}.

(** An integer index on an axis of length [n], with Python's negative
    indices; out of range raises [IndexError]. *)
Definition axis_index (n : nat) (k : Z) : result nat :=
  if ((0 <=? k) && (k <? Z.of_nat n))%Z then Ok (Z.to_nat k)
  else if ((- Z.of_nat n <=? k) && (k <? 0))%Z then Ok (Z.to_nat (k + Z.of_nat n))
  else Raise IndexError.

(** The entry of a row at a resolved column (every row of a table has
    one). *)
Definition fld (i : nat) (r : list Q) : Q := nth i r 0.

(** [a[:, k]] *)
Definition column (L : Labels) (k : Z) : result (list Q) :=
  i ← axis_index (ncols L) k;
  Ok (fld i <$> rows L).

(** [a[:, k] = v] *)
Definition set_column (L : Labels) (k : Z) (v : list Q) : result Labels :=
  i ← axis_index (ncols L) k;
  Ok (mkLabels (ncols L) (zip_with (fun r x => <[i:=x]> r) (rows L) v)).

(** [np.ones(shape=m, dtype=np.bool)], with [np.bool] the boolean dtype
    (numpy before 1.24), and the element-wise operations on
    one-dimensional arrays of equal length; [*] on boolean arrays is the
    conjunction. *)
Definition np_ones (m : nat) : list bool := replicate m true.
Definition vmul (a b : list bool) : list bool := zip_with andb a b.
Definition vgt (a b : list Q) : list bool := zip_with Qgtb a b.
Definition vge (a b : list Q) : list bool := zip_with Qgeb a b.
Definition vle (a b : list Q) : list bool := zip_with Qle_bool a b.

(** Comparisons between an array and a scalar (broadcast). *)
Definition sgt (a : list Q) (c : Q) : list bool := (fun x => Qgtb x c) <$> a.
Definition sge (a : list Q) (c : Q) : list bool := (fun x => Qgeb x c) <$> a.
Definition sle (a : list Q) (c : Q) : list bool := (fun x => Qle_bool x c) <$> a.

Section Elementwise.
Variable ar : Arith.

(** [a - b], [a + b], [a * b] on two arrays. *)
Definition vsub (a b : list Q) : list Q := zip_with (arr_sub ar) a b.
Definition vadd (a b : list Q) : list Q := zip_with (arr_add ar) a b.
Definition vtimes (a b : list Q) : list Q := zip_with (arr_mul ar) a b.

(** [a + d], [a / d] and [c * a] between an array and a scalar
    (broadcast). *)
Definition sadd (a : list Q) (d : Q) : list Q :=
  (fun x => arr_add_scalar ar x d) <$> a.
Definition sdiv (a : list Q) (d : Q) : list Q :=
  (fun x => arr_div_scalar ar x d) <$> a.
Definition sscale (c : Q) (a : list Q) : list Q :=
  (fun x => scalar_mul_arr ar c x) <$> a.

(** [np.clip(a, a_min, a_max)] *)
Definition np_clip (a : list Q) (a_min a_max : Q) : list Q :=
  arr_clip ar a_min a_max <$> a.
End Elementwise.

(** [a[mask]] with a boolean mask: the rows whose mask entry is true. *)
Fixpoint select (mask : list bool) (rs : list (list Q)) : list (list Q) :=
  match mask, rs with
  | b :: mask', r :: rs' => if b then r :: select mask' rs' else select mask' rs'
  | _, _ => []
  end.

(** ** The store of arrays

    Arrays are objects: [np.copy] makes a new one, an indexed assignment
    writes into an existing one. A location is an index into the store. *)

Abbreviation loc := nat (only parsing).
Abbreviation Store := (list Labels) (only parsing).
Definition M (A : Type) : Type := Store -> result A * Store.

#[global] Instance M_ret : MRet M := fun _ a σ => (Ok a, σ).
#[global] Instance M_bind : MBind M := fun _ _ k c σ =>
  match c σ with
  | (Ok a, σ') => k a σ'
  | (Raise e, σ') => (Raise e, σ')
  end.

(** A computation that does not touch the store. *)
Definition lift {A : Type} (r : result A) : M A := fun σ => (r, σ).

(** Reading the array at a location. The arguments of [__call__] are
    locations of two-dimensional arrays; a location outside the store
    holds no array, and reading it is given the outcome [IndexError]. *)
Definition load (a : loc) : M Labels := fun σ =>
  match σ !! a with
  | Some L => (Ok L, σ)
  | None => (Raise IndexError, σ)
  end.

(** Writing a table at a location, and making a new one. *)
Definition store (a : loc) (L : Labels) : M unit := fun σ =>
  (Ok tt, <[a:=L]> σ).

Definition alloc (L : Labels) : M loc := fun σ =>
  (Ok (length σ), σ ++ [L]).

(** [np.copy(a)] *)
Definition np_copy (a : loc) : M loc :=
  L ← load a; alloc L.

(** [a.shape[0]] *)
Definition shape0 (a : loc) : M nat :=
  L ← load a; mret (length (rows L)).

(** [a[:, k]] read from the store *)
Definition col (a : loc) (k : Z) : M (list Q) :=
  L ← load a; lift (column L k).

(** [a[:, k] = v] written to the store *)
Definition setcol (a : loc) (k : Z) (v : list Q) : M unit :=
  L ← load a; L' ← lift (set_column L k v); store a L'.

(** [a[mask]]: boolean indexing returns a new array. *)
Definition bool_index (a : loc) (mask : list bool) : M loc :=
  L ← load a; alloc (mkLabels (ncols L) (select mask (rows L))).

(** [a[:, [k1, k2]]]: the two columns, as a new array. *)
Definition cols2 (a : loc) (k1 k2 : Z) : M (list Q * list Q) :=
  L ← load a;
  c1 ← lift (column L k1);
  c2 ← lift (column L k2);
  mret (c1, c2).

(** [a[:, [k1, k2]] = v]: the columns are written in the order of the
    index list. *)
Definition setcols2 (a : loc) (k1 k2 : Z) (v : list Q * list Q) : M unit :=
  _ ← setcol a k1 (fst v); setcol a k2 (snd v).

(** [a[:, [k1, k2, k3, k4]]]: a new array of shape [(m, 4)]. *)
Definition cols4 (a : loc) (k1 k2 k3 k4 : Z) : M (list (list Q)) :=
  L ← load a;
  i1 ← lift (axis_index (ncols L) k1);
  i2 ← lift (axis_index (ncols L) k2);
  i3 ← lift (axis_index (ncols L) k3);
  i4 ← lift (axis_index (ncols L) k4);
  mret ((fun r => [fld i1 r; fld i2 r; fld i3 r; fld i4 r]) <$> rows L).

(** ** Python values of the configuration *)

(** [class BoundGenerator: pass]: an object without attributes. *)
Inductive BoundGenerator : Type := mkBoundGenerator.

(** The values [overlap_bounds] is tested for: a list or tuple (of
    numbers), a [BoundGenerator], or any other object (a number, [None]). *)
Inductive Bounds : Type :=
  | BoundsSeq (l : list Q)
  | BoundsGen (g : BoundGenerator)
  | BoundsOther.

(** [l[i]] on a list or tuple *)
Definition seq_getitem (l : list Q) (i : nat) : result Q :=
  match l !! i with
  | Some x => Ok x
  | None => Raise IndexError
  end.

(** [d[key]] on a dict *)
Definition dict_getitem (d : gmap string Z) (key : string) : result Z :=
  match d !! key with
  | Some k => Ok k
  | None => Raise KeyError
  end.

(** [x - 1] where [x] may be [None] *)
Definition py_pred (ar : Arith) (x : option Q) : result Q :=
  match x with
  | Some v => Ok (py_sub ar v 1)
  | None => Raise TypeError
  end.

(** ** BoxFilter *)

Record BoxFilter : Type := mkBoxFilter {
  check_overlap : bool;
  check_min_area : bool;
  check_degenerate : bool;
  overlap_criterion : string;
  overlap_bounds : Bounds;
  min_area : Q;
  labels_format : gmap string Z;
  border_pixels : string
}.

(** [overlap_criterion in {'iou', 'area', 'center_point'}] *)
Definition criterion_known (c : string) : bool :=
  String.eqb c "iou" || String.eqb c "area" || String.eqb c "center_point".

(** [BoxFilter.__init__] *)
Definition init (check_overlap check_min_area check_degenerate : bool)
    (overlap_criterion : string) (overlap_bounds : Bounds) (min_area : Q)
    (labels_format : gmap string Z) (border_pixels : string) : result BoxFilter :=
  _ ← match overlap_bounds with
      | BoundsOther => Raise ValueError
      | _ => Ok tt
      end;
  _ ← match overlap_bounds with
      | BoundsSeq l =>
          lo ← seq_getitem l 0;
          hi ← seq_getitem l 1;
          if Qgtb lo hi then Raise ValueError else Ok tt
      | _ => Ok tt
      end;
  if negb (criterion_known overlap_criterion) then Raise ValueError
  else Ok (mkBoxFilter check_overlap check_min_area check_degenerate
             overlap_criterion overlap_bounds min_area labels_format
             border_pixels).

(** The default arguments of [__init__]. *)
Definition default_labels_format : gmap string Z :=
  <["class_id" := 0%Z]> (<["xmin" := 1%Z]> (<["ymin" := 2%Z]>
    (<["xmax" := 3%Z]> (<["ymax" := 4%Z]> ∅)))).
Definition default_overlap_bounds : Bounds := BoundsSeq [3 # 10; 1].
Definition default_min_area : Q := 16.

(** [lower, upper = self.overlap_bounds()] or [= self.overlap_bounds]:
    an instance of the empty class is not callable; unpacking needs
    exactly two elements. *)
Definition get_bounds (b : Bounds) : result (Q * Q) :=
  match b with
  | BoundsGen _ => Raise TypeError
  | BoundsSeq [lower; upper] => Ok (lower, upper)
  | BoundsSeq _ => Raise ValueError
  | BoundsOther => Raise TypeError
  end.

(** The value bound to [d] by the [if]/[elif] chain on [border_pixels];
    with any other string [d] stays unbound. *)
Definition border_d (border_pixels : string) : option Q :=
  if String.eqb border_pixels "half" then Some 0
  else if String.eqb border_pixels "include" then Some 1
  else if String.eqb border_pixels "exclude" then Some (-1)
  else None.

(** Reading the local variable [d]. *)
Definition local_d (d : option Q) : result Q :=
  match d with
  | Some v => Ok v
  | None => Raise UnboundLocalError
  end.

(** ** IoU (utils.bounding_box) *)

(** Modelled from the spec: the module [utils.bounding_box] that defines
    [iou], imported by [boxes_validation_utils.py], is missing. The
    intersection is the overlap of the two rectangles, its width and
    height taken with the border adjustment [d] and never negative. *)
Definition intersection_area (d : Q) (a b : list Q) : Q :=
  let w := np_minimum (fld 2 a) (fld 2 b) - np_maximum (fld 0 a) (fld 0 b) + d in
  let h := np_minimum (fld 3 a) (fld 3 b) - np_maximum (fld 1 a) (fld 1 b) + d in
  np_maximum 0 w * np_maximum 0 h.

(** Modelled from the spec: the area of a rectangle [(xmin, ymin, xmax,
    ymax)] with the border adjustment [d], from the missing module
    [utils.bounding_box]. *)
Definition rect_area (d : Q) (r : list Q) : Q :=
  (fld 2 r - fld 0 r + d) * (fld 3 r - fld 1 r + d).

(** Modelled from the spec: intersection over union of two rectangles in
    corner coordinates, from the missing module [utils.bounding_box]; 0
    when the union is empty. *)
Definition iou1 (d : Q) (a b : list Q) : Q :=
  let i := intersection_area d a b in
  let u := rect_area d a + rect_area d b - i in
  if Qeq_bool u 0 then 0 else i / u.

(** Modelled from the spec: [iou(boxes1, boxes2, coords='corners',
    mode='element-wise', border_pixels=...)] of the missing module
    [utils.bounding_box], with one reference rectangle broadcast against
    the [m] candidates. A reference coordinate that is [None] makes the
    arithmetic raise [TypeError]; a border convention other than the three
    named ones leaves the adjustment unbound. *)
Definition iou (boxes1 : list (option Q)) (boxes2 : list (list Q))
    (border_pixels : string) : result (list Q) :=
  match boxes1 with
  | [Some x0; Some y0; Some x1; Some y1] =>
      d ← local_d (border_d border_pixels);
      Ok (iou1 d [x0; y0; x1; y1] <$> boxes2)
  | _ => Raise TypeError
  end.

(** ** BoxFilter.__call__ *)

Section Call.
Variable ar : Arith.
Variable self : BoxFilter.
Variable labels : loc.
Variables image_height image_width : option Q.
Variables xmin ymin xmax ymax : Z.

(** [if self.check_degenerate: ...] *)
Definition degenerate_block (requirements_met : list bool) : M (list bool) :=
  if check_degenerate self then
    x1 ← col labels xmax;
    x0 ← col labels xmin;
    y1 ← col labels ymax;
    y0 ← col labels ymin;
    let non_degenerate := vmul (vgt x1 x0) (vgt y1 y0) in
    mret (vmul requirements_met non_degenerate)
  else mret requirements_met.

(** [if self.check_min_area: ...] *)
Definition min_area_block (requirements_met : list bool) : M (list bool) :=
  if check_min_area self then
    x1 ← col labels xmax;
    x0 ← col labels xmin;
    y1 ← col labels ymax;
    y0 ← col labels ymin;
    let min_area_met :=
      sge (vtimes ar (vsub ar x1 x0) (vsub ar y1 y0)) (min_area self) in
    mret (vmul requirements_met min_area_met)
  else mret requirements_met.

(** The branch [self.overlap_criterion == 'iou']. *)
Definition iou_branch (lower upper : Q) (requirements_met : list bool)
    : M (list bool) :=
  let image_coords := [Some 0; Some 0; image_width; image_height] in
  boxes ← cols4 labels xmin ymin xmax ymax;
  image_boxes_iou ← lift (iou image_coords boxes (border_pixels self));
  mret (vmul requirements_met
          (vmul (sgt image_boxes_iou lower) (sle image_boxes_iou upper))).

(** The branch [self.overlap_criterion == 'area']. *)
Definition area_branch (lower upper : Q) (requirements_met : list bool)
    : M (list bool) :=
  let d := border_d (border_pixels self) in
  x1 ← col labels xmax;
  x0 ← col labels xmin;
  d ← lift (local_d d);
  y1 ← col labels ymax;
  y0 ← col labels ymin;
  let box_areas :=
    vtimes ar (sadd ar (vsub ar x1 x0) d) (sadd ar (vsub ar y1 y0) d) in
  clipped_boxes ← np_copy labels;
  ys ← cols2 labels ymin ymax;
  hmax ← lift (py_pred ar image_height);
  _ ← setcols2 clipped_boxes ymin ymax
        (np_clip ar (fst ys) 0 hmax, np_clip ar (snd ys) 0 hmax);
  xs ← cols2 labels xmin xmax;
  wmax ← lift (py_pred ar image_width);
  _ ← setcols2 clipped_boxes xmin xmax
        (np_clip ar (fst xs) 0 wmax, np_clip ar (snd xs) 0 wmax);
  cx1 ← col clipped_boxes xmax;
  cx0 ← col clipped_boxes xmin;
  cy1 ← col clipped_boxes ymax;
  cy0 ← col clipped_boxes ymin;
  let intersection_areas :=
    vtimes ar (sadd ar (vsub ar cx1 cx0) d) (sadd ar (vsub ar cy1 cy0) d) in
  let mask_lower :=
    if Qeq_bool lower 0 then sgt intersection_areas 0
    else vge intersection_areas (sscale ar lower box_areas) in
  let mask_upper := vle intersection_areas (sscale ar upper box_areas) in
  mret (vmul requirements_met (vmul mask_lower mask_upper)).

(** The branch [self.overlap_criterion == 'center_point']. *)
Definition center_point_branch (requirements_met : list bool)
    : M (list bool) :=
  y0 ← col labels ymin;
  y1 ← col labels ymax;
  let cy := sdiv ar (vadd ar y0 y1) 2 in
  x0 ← col labels xmin;
  x1 ← col labels xmax;
  let cx := sdiv ar (vadd ar x0 x1) 2 in
  hmax ← lift (py_pred ar image_height);
  wmax ← lift (py_pred ar image_width);
  let image_box_center :=
    vmul (vmul (vmul (sge cy 0) (sle cy hmax)) (sge cx 0)) (sle cx wmax) in
  mret (vmul requirements_met image_box_center).

(** [if self.check_overlap: ...] *)
Definition overlap_block (requirements_met : list bool) : M (list bool) :=
  if check_overlap self then
    '(lower, upper) ← lift (get_bounds (overlap_bounds self));
    if String.eqb (overlap_criterion self) "iou" then
      iou_branch lower upper requirements_met
    else if String.eqb (overlap_criterion self) "area" then
      area_branch lower upper requirements_met
    else if String.eqb (overlap_criterion self) "center_point" then
      center_point_branch requirements_met
    else mret requirements_met
  else mret requirements_met.
End Call.

(** The acceptance mask [requirements_met] of [__call__], computed on the
    copy of the labels. *)
Definition requirements_met (ar : Arith) (self : BoxFilter) (labels : loc)
    (image_height image_width : option Q) : M (list bool) :=
  xmin ← lift (dict_getitem (labels_format self) "xmin");
  ymin ← lift (dict_getitem (labels_format self) "ymin");
  xmax ← lift (dict_getitem (labels_format self) "xmax");
  ymax ← lift (dict_getitem (labels_format self) "ymax");
  m ← shape0 labels;
  let met := np_ones m in
  met ← degenerate_block self labels xmin ymin xmax ymax met;
  met ← min_area_block ar self labels xmin ymin xmax ymax met;
  overlap_block ar self labels image_height image_width
    xmin ymin xmax ymax met.

(** [BoxFilter.__call__(labels, image_height, image_width)], run with the
    arithmetic [ar]. *)
Definition call (ar : Arith) (self : BoxFilter) (labels : loc)
    (image_height image_width : option Q) : M loc :=
  labels ← np_copy labels;
  met ← requirements_met ar self labels image_height image_width;
  bool_index labels met.

(** ** Row-wise reading of the checks

    What each check computes for one row [r] of the table, at resolved
    column indices; the vectorised code is related to these below. *)

Record Cols : Type := mkCols {
  ixmin : nat;
  iymin : nat;
  ixmax : nat;
  iymax : nat
}.

(** The four column indices resolved on a table of [n] columns, in the
    order in which the degenerate and minimum-area blocks read them. *)
Definition resolve_cols (n : nat) (xmin ymin xmax ymax : Z) : result Cols :=
  i_xmax ← axis_index n xmax;
  i_xmin ← axis_index n xmin;
  i_ymax ← axis_index n ymax;
  i_ymin ← axis_index n ymin;
  Ok (mkCols i_xmin i_ymin i_xmax i_ymax).

Section Rows.
Variable ar : Arith.
Variable c : Cols.

(** [(xmax > xmin) * (ymax > ymin)] on one row. *)
Definition non_degenerate_row (r : list Q) : bool :=
  Qgtb (fld (ixmax c) r) (fld (ixmin c) r)
  && Qgtb (fld (iymax c) r) (fld (iymin c) r).

(** The entry of [(xmax - xmin) * (ymax - ymin)] for one row, and
    [(xmax - xmin) * (ymax - ymin) >= a]. *)
Definition box_product (r : list Q) : Q :=
  arr_mul ar (arr_sub ar (fld (ixmax c) r) (fld (ixmin c) r))
    (arr_sub ar (fld (iymax c) r) (fld (iymin c) r)).

Definition min_area_row (a : Q) (r : list Q) : bool :=
  Qgeb (box_product r) a.

(** The row of [clipped_boxes] that belongs to the row [r] of [labels]. *)
Definition clipped_row (hmax wmax : Q) (r : list Q) : list Q :=
  <[ixmax c := arr_clip ar 0 wmax (fld (ixmax c) r)]>
    (<[ixmin c := arr_clip ar 0 wmax (fld (ixmin c) r)]>
      (<[iymax c := arr_clip ar 0 hmax (fld (iymax c) r)]>
        (<[iymin c := arr_clip ar 0 hmax (fld (iymin c) r)]> r))).

(** The entries of [box_areas] and [intersection_areas] for one row, and
    [mask_lower * mask_upper]. *)
Definition box_area_row (d : Q) (r : list Q) : Q :=
  arr_mul ar
    (arr_add_scalar ar (arr_sub ar (fld (ixmax c) r) (fld (ixmin c) r)) d)
    (arr_add_scalar ar (arr_sub ar (fld (iymax c) r) (fld (iymin c) r)) d).

Definition intersection_row (d hmax wmax : Q) (r : list Q) : Q :=
  box_area_row d (clipped_row hmax wmax r).

Definition area_row (d lower upper hmax wmax : Q) (r : list Q) : bool :=
  (if Qeq_bool lower 0 then Qgtb (intersection_row d hmax wmax r) 0
   else Qgeb (intersection_row d hmax wmax r)
          (scalar_mul_arr ar lower (box_area_row d r)))
  && Qle_bool (intersection_row d hmax wmax r)
       (scalar_mul_arr ar upper (box_area_row d r)).

(** The entries of [cx] and [cy] for one row, and [image_box_center]. *)
Definition center_x (r : list Q) : Q :=
  arr_div_scalar ar (arr_add ar (fld (ixmin c) r) (fld (ixmax c) r)) 2.
Definition center_y (r : list Q) : Q :=
  arr_div_scalar ar (arr_add ar (fld (iymin c) r) (fld (iymax c) r)) 2.

Definition center_point_row (hmax wmax : Q) (r : list Q) : bool :=
  Qgeb (center_y r) 0 && Qle_bool (center_y r) hmax
  && Qgeb (center_x r) 0 && Qle_bool (center_x r) wmax.

(** The row of [labels[:, [xmin, ymin, xmax, ymax]]], its IoU with the
    region rectangle, and [(iou > lower) * (iou <= upper)]. *)
Definition corners (r : list Q) : list Q :=
  [fld (ixmin c) r; fld (iymin c) r; fld (ixmax c) r; fld (iymax c) r].

Definition iou_value (d width height : Q) (r : list Q) : Q :=
  iou1 d [0; 0; width; height] (corners r).

Definition iou_row (d width height lower upper : Q) (r : list Q) : bool :=
  Qgtb (iou_value d width height r) lower
  && Qle_bool (iou_value d width height r) upper.
End Rows.

(** The outcome of each block of [__call__] on a table of [n] columns:
    the exception it raises, or the row predicate its mask tabulates,
    conjoined with the predicate [q] of the mask it updates. *)

Section Plan.
Variable ar : Arith.
Variable self : BoxFilter.
Variable n : nat.
Variables image_height image_width : option Q.
Variables xmin ymin xmax ymax : Z.

Definition degenerate_plan (q : list Q -> bool) : result (list Q -> bool) :=
  if check_degenerate self then
    c ← resolve_cols n xmin ymin xmax ymax;
    Ok (fun r => q r && non_degenerate_row c r)
  else Ok q.

Definition min_area_plan (q : list Q -> bool) : result (list Q -> bool) :=
  if check_min_area self then
    c ← resolve_cols n xmin ymin xmax ymax;
    Ok (fun r => q r && min_area_row ar c (min_area self) r)
  else Ok q.

Definition iou_plan (lower upper : Q) (q : list Q -> bool)
    : result (list Q -> bool) :=
  c ← resolve_cols n xmin ymin xmax ymax;
  match image_width, image_height with
  | Some width, Some height =>
      d ← local_d (border_d (border_pixels self));
      Ok (fun r => q r && iou_row c d width height lower upper r)
  | _, _ => Raise TypeError
  end.

Definition area_plan (lower upper : Q) (q : list Q -> bool)
    : result (list Q -> bool) :=
  i_xmax ← axis_index n xmax;
  i_xmin ← axis_index n xmin;
  d ← local_d (border_d (border_pixels self));
  i_ymax ← axis_index n ymax;
  i_ymin ← axis_index n ymin;
  hmax ← py_pred ar image_height;
  wmax ← py_pred ar image_width;
  Ok (fun r => q r && area_row ar (mkCols i_xmin i_ymin i_xmax i_ymax)
                        d lower upper hmax wmax r).

Definition center_point_plan (q : list Q -> bool) : result (list Q -> bool) :=
  c ← resolve_cols n xmin ymin xmax ymax;
  hmax ← py_pred ar image_height;
  wmax ← py_pred ar image_width;
  Ok (fun r => q r && center_point_row ar c hmax wmax r).

Definition overlap_plan (q : list Q -> bool) : result (list Q -> bool) :=
  if check_overlap self then
    '(lower, upper) ← get_bounds (overlap_bounds self);
    if String.eqb (overlap_criterion self) "iou" then iou_plan lower upper q
    else if String.eqb (overlap_criterion self) "area" then area_plan lower upper q
    else if String.eqb (overlap_criterion self) "center_point" then center_point_plan q
    else Ok q
  else Ok q.
End Plan.

(** The four lookups in [self.labels_format]. *)
Definition lookup_cols (self : BoxFilter) : result (Z * Z * Z * Z) :=
  xmin ← dict_getitem (labels_format self) "xmin";
  ymin ← dict_getitem (labels_format self) "ymin";
  xmax ← dict_getitem (labels_format self) "xmax";
  ymax ← dict_getitem (labels_format self) "ymax";
  Ok (xmin, ymin, xmax, ymax).

(** The outcome of computing the whole mask. *)
Definition row_plan (ar : Arith) (self : BoxFilter) (n : nat)
    (image_height image_width : option Q) : result (list Q -> bool) :=
  '(xmin, ymin, xmax, ymax) ← lookup_cols self;
  q ← degenerate_plan self n xmin ymin xmax ymax (fun _ => true);
  q ← min_area_plan ar self n xmin ymin xmax ymax q;
  overlap_plan ar self n image_height image_width xmin ymin xmax ymax q.

(** ** The area criterion in the specification's words

    The box area and the intersection area of a box with the corners
    [(bxmin, bymin)] and [(bxmax, bymax)], with the border adjustment [d];
    the intersection area is the same product after clipping the
    coordinates to [[0, hmax]] and [[0, wmax]], the computed [height - 1]
    and [width - 1]. *)

Definition spec_box_area (ar : Arith) (d bxmin bymin bxmax bymax : Q) : Q :=
  arr_mul ar (arr_add_scalar ar (arr_sub ar bxmax bxmin) d)
    (arr_add_scalar ar (arr_sub ar bymax bymin) d).

Definition spec_intersection_area (ar : Arith) (d hmax wmax : Q)
    (bxmin bymin bxmax bymax : Q) : Q :=
  spec_box_area ar d
    (arr_clip ar 0 wmax bxmin) (arr_clip ar 0 hmax bymin)
    (arr_clip ar 0 wmax bxmax) (arr_clip ar 0 hmax bymax).

(** The acceptance condition of the criterion [Area]. *)
Definition spec_area_accepts (ar : Arith)
    (lower upper box_area intersection : Q) : Prop :=
  intersection <= scalar_mul_arr ar upper box_area
  /\ (lower == 0 -> 0 < intersection)
  /\ (~ lower == 0 -> scalar_mul_arr ar lower box_area <= intersection).

(** Every row of a table has as many entries as the table has columns. *)
Definition rectangular (L : Labels) : Prop :=
  Forall (fun r => length r = ncols L) (rows L).

(** The coordinate columns of [x] are not columns of [y]. *)
Definition xy_apart (c : Cols) : Prop :=
  ixmin c <> iymin c /\ ixmin c <> iymax c
  /\ ixmax c <> iymin c /\ ixmax c <> iymax c.

(** What the overlap block needs in order not to raise: bounds that
    unpack into a pair, both region dimensions, and one of the three
    border conventions. *)
Definition overlap_ready (self : BoxFilter) (h w : option Q) : Prop :=
  (exists lower upper : Q,
      get_bounds (overlap_bounds self) = Ok (lower, upper))
  /\ (exists hv wv : Q, h = Some hv /\ w = Some wv)
  /\ (exists d : Q, border_d (border_pixels self) = Some d).


(** ** Scenarios of the specification *)

(** [BoxFilter()] with the default arguments. *)
Definition default_filter : BoxFilter :=
  mkBoxFilter true true true "center_point" default_overlap_bounds
    default_min_area default_labels_format "half".

(** Only the minimum-area and degenerate checks. *)
Definition size_filter : BoxFilter :=
  mkBoxFilter false true true "center_point" default_overlap_bounds
    default_min_area default_labels_format "half".

(** The region of the scenarios: height 300, width 480. *)
Definition region_height : Q := 300.
Definition region_width : Q := 480.

(** The criterion [area] with the window [(0, 1)], under a border
    convention. *)
Definition area_filter (border : string) : BoxFilter :=
  mkBoxFilter true false false "area" (BoundsSeq [0; 1]) default_min_area
    default_labels_format border.

(** A box across the right edge of the region and a box outside of it. *)
Definition edge_labels : Labels :=
  mkLabels 5 [[0; 470; 100; 490; 200]; [1; -5; -5; -4; -4]].

(** Two boxes that lie outside of the region 300 x 480, one to the upper
    left and one to the lower right of it. *)
Definition outside_labels : Labels :=
  mkLabels 5 [[1; -7; -7; -4; -4]; [2; 500; 310; 520; 330]].

(** Rows [(class_id, xmin, ymin, xmax, ymax)]: a box of area 1600, a box
    of area 4 and a degenerate box. *)
Definition scenario_labels : Labels :=
  mkLabels 5 [[0; 10; 10; 50; 50]; [1; 0; 0; 2; 2]; [2; 20; 20; 20; 40]].

(** ** Filters and rows compared *)

(** Two rows with the same four coordinates. *)
Definition same_box (c : Cols) (r r' : list Q) : Prop :=
  fld (ixmin c) r = fld (ixmin c) r'
  /\ fld (iymin c) r = fld (iymin c) r'
  /\ fld (ixmax c) r = fld (ixmax c) r'
  /\ fld (iymax c) r = fld (iymax c) r'.

(** The filter with the configuration of [self] and at most one of its
    checks left enabled. *)
Definition only_degenerate (self : BoxFilter) : BoxFilter :=
  mkBoxFilter false false (check_degenerate self) (overlap_criterion self)
    (overlap_bounds self) (min_area self) (labels_format self)
    (border_pixels self).

Definition only_min_area (self : BoxFilter) : BoxFilter :=
  mkBoxFilter false (check_min_area self) false (overlap_criterion self)
    (overlap_bounds self) (min_area self) (labels_format self)
    (border_pixels self).

Definition only_overlap (self : BoxFilter) : BoxFilter :=
  mkBoxFilter (check_overlap self) false false (overlap_criterion self)
    (overlap_bounds self) (min_area self) (labels_format self)
    (border_pixels self).

(** Two rows with the same box, another class id and another sixth
    column. *)
Definition twin_labels : Labels :=
  mkLabels 6 [[0; 10; 10; 50; 50; 7]; [3; 10; 10; 50; 50; 9]].

(** The criterion [area] with the default window, under the convention
    [half], without the other checks. *)
Definition area_default_filter : BoxFilter :=
  mkBoxFilter true false false "area" default_overlap_bounds
    default_min_area default_labels_format "half".

(** A box in the region, a box without width and a box past the right
    edge of the region. *)
Definition area_labels : Labels :=
  mkLabels 5 [[0; 10; 10; 50; 50]; [1; 20; 20; 20; 40];
              [2; 500; 100; 520; 200]].

(** The filter with the configuration of [self] and the minimum-area
    check switched off. *)
Definition without_min_area (self : BoxFilter) : BoxFilter :=
  mkBoxFilter (check_overlap self) false (check_degenerate self)
    (overlap_criterion self) (overlap_bounds self) (min_area self)
    (labels_format self) (border_pixels self).



(** ** Laws of an arithmetic

    What a difference, a sum or a product with 0 gives, and that clipping
    gives equal numbers for equal numbers: so it is in every integer
    dtype and on the finite numbers of every floating dtype. *)
Definition zero_laws (ar : Arith) : Prop :=
  (forall lo hi x y : Q, x == y -> arr_clip ar lo hi x == arr_clip ar lo hi y)
  /\ (forall x y : Q, x == y -> arr_sub ar x y == 0)
  /\ (forall z : Q, z == 0 -> arr_add_scalar ar z 0 == 0)
  /\ (forall x y : Q, x == 0 \/ y == 0 -> arr_mul ar x y == 0)
  /\ (forall k z : Q, z == 0 -> scalar_mul_arr ar k z == 0).

(** The difference of a larger and a smaller number is positive, and the
    product of two positive numbers is not negative: so it is in a
    floating dtype, and in an integer dtype as long as nothing
    overflows. *)
Definition sign_laws (ar : Arith) : Prop :=
  (forall x y : Q, y < x -> 0 < arr_sub ar x y)
  /\ (forall x y : Q, 0 < x -> 0 < y -> 0 <= arr_mul ar x y).

(** ** Facts on comparisons *)

Lemma Qgtb_lt (a b : Q) : Qgtb a b = true <-> b < a.
Proof.
  unfold Qgtb. rewrite negb_true_iff. split.
  - intros H. apply Qnot_le_lt. intros Hle.
    apply Qle_bool_iff in Hle. congruence.
  - intros H. destruct (Qle_bool a b) eqn:E; [|reflexivity].
    apply Qle_bool_iff in E. exfalso. apply (Qlt_not_le _ _ H E).
Qed.

Lemma Qgeb_le (a b : Q) : Qgeb a b = true <-> b <= a.
Proof. unfold Qgeb. apply Qle_bool_iff. Qed.

(** ** Running the store monad *)

Lemma bind_run {A B : Type} (c : M A) (k : A -> M B) (σ : Store) :
  (c ≫= k) σ =
  match c σ with
  | (Ok a, σ') => k a σ'
  | (Raise e, σ') => (Raise e, σ')
  end.
Proof. reflexivity. Qed.

Lemma lift_run {A : Type} (r : result A) (σ : Store) : lift r σ = (r, σ).
Proof. reflexivity. Qed.

Lemma ret_run {A : Type} (a : A) (σ : Store) : mret (M := M) a σ = (Ok a, σ).
Proof. reflexivity. Qed.

Lemma load_run (σ : Store) (a : loc) (L : Labels) :
  σ !! a = Some L -> load a σ = (Ok L, σ).
Proof. intros H. unfold load. by rewrite H. Qed.

Lemma shape0_run (σ : Store) (a : loc) (L : Labels) :
  σ !! a = Some L -> shape0 a σ = (Ok (length (rows L)), σ).
Proof. intros H. unfold shape0. by rewrite bind_run, (load_run _ _ _ H). Qed.

Lemma col_run (σ : Store) (a : loc) (L : Labels) (k : Z) :
  σ !! a = Some L -> col a k σ = (column L k, σ).
Proof. intros H. unfold col. by rewrite bind_run, (load_run _ _ _ H). Qed.

Lemma np_copy_run (σ : Store) (a : loc) (L : Labels) :
  σ !! a = Some L -> np_copy a σ = (Ok (length σ), σ ++ [L]).
Proof. intros H. unfold np_copy. by rewrite bind_run, (load_run _ _ _ H). Qed.

Lemma bool_index_run (σ : Store) (a : loc) (L : Labels) (mask : list bool) :
  σ !! a = Some L ->
  bool_index a mask σ =
  (Ok (length σ), σ ++ [mkLabels (ncols L) (select mask (rows L))]).
Proof. intros H. unfold bool_index. by rewrite bind_run, (load_run _ _ _ H). Qed.

Lemma axis_index_error (n : nat) (k : Z) (e : PyErr) :
  axis_index n k = Raise e -> e = IndexError.
Proof.
  unfold axis_index. repeat case_match; congruence.
Qed.

Lemma axis_index_lt (n : nat) (k : Z) (i : nat) :
  axis_index n k = Ok i -> (i < n)%nat.
Proof.
  unfold axis_index. repeat case_match; intros [= <-]; lia.
Qed.

Lemma axis_index_cases (n : nat) (k : Z) :
  (exists i, axis_index n k = Ok i) \/ axis_index n k = Raise IndexError.
Proof.
  destruct (axis_index n k) as [i|e] eqn:E; [by eauto|].
  right. by rewrite (axis_index_error _ _ _ E).
Qed.

(** ** Vectorised masks tabulate row predicates *)

Lemma np_ones_rows {A : Type} (l : list A) :
  np_ones (length l) = (fun _ => true) <$> l.
Proof. unfold np_ones. induction l as [|x l IH]; simpl; [done|]. by rewrite IH. Qed.

Lemma select_fmap (p : list Q -> bool) (rs : list (list Q)) :
  select (p <$> rs) rs = List.filter p rs.
Proof.
  induction rs as [|r rs IH]; [done|].
  rewrite fmap_cons. cbn [select List.filter]. by rewrite IH.
Qed.

Ltac fuse :=
  unfold vmul, vsub, vadd, vtimes, vgt, vge, vle,
    sadd, sdiv, sscale, sgt, sge, sle, np_clip;
  repeat (rewrite zip_with_fmap_l || rewrite zip_with_fmap_r
          || rewrite zip_with_diag || rewrite <- list_fmap_compose).

Lemma col_run_end (σ : Store) (C : Labels) (k : Z) :
  col (length σ) k (σ ++ [C]) = (column C k, σ ++ [C]).
Proof. apply col_run. by apply list_lookup_middle. Qed.

Lemma setcol_run_end (σ : Store) (C : Labels) (k : Z) (v : list Q) :
  setcol (length σ) k v (σ ++ [C]) =
  match set_column C k v with
  | Ok C' => (Ok tt, σ ++ [C'])
  | Raise e => (Raise e, σ ++ [C])
  end.
Proof.
  unfold setcol. rewrite bind_run, (load_run _ _ C); [|by apply list_lookup_middle].
  rewrite bind_run, lift_run. destruct (set_column C k v) as [C'|e]; [|reflexivity].
  unfold store. f_equal.
  rewrite insert_app_r_alt by lia. by rewrite Nat.sub_diag.
Qed.

(** Runs the reads of a block whose column indices are already resolved
    by equations in the context. *)
Ltac run_reads Ha :=
  repeat first
    [ rewrite bind_run
    | rewrite (col_run _ _ _ _ Ha)
    | rewrite (load_run _ _ _ Ha)
    | rewrite lift_run
    | rewrite ret_run
    | progress unfold column
    | match goal with
      | E : axis_index _ _ = _ |- _ => rewrite E
      end
    | progress simpl ].

Section BlockRuns.
Variable ar : Arith.
Variable self : BoxFilter.
Variable σ : Store.
Variable a : loc.
Variable L : Labels.
Hypothesis Ha : σ !! a = Some L.
Variables xmin ymin xmax ymax : Z.
Variable q : list Q -> bool.

Lemma degenerate_block_run :
  degenerate_block self a xmin ymin xmax ymax (q <$> rows L) σ =
  ((fun p : list Q -> bool => p <$> rows L)
     <$> degenerate_plan self (ncols L) xmin ymin xmax ymax q, σ).
Proof using Ha.
  unfold degenerate_block, degenerate_plan, resolve_cols.
  destruct (check_degenerate self); [|reflexivity].
  rewrite !bind_run, (col_run _ _ _ _ Ha). unfold column.
  destruct (axis_index (ncols L) xmax) as [i1|e]; [|reflexivity]. simpl.
  rewrite !bind_run, (col_run _ _ _ _ Ha). unfold column.
  destruct (axis_index (ncols L) xmin) as [i0|e]; [|reflexivity]. simpl.
  rewrite !bind_run, (col_run _ _ _ _ Ha). unfold column.
  destruct (axis_index (ncols L) ymax) as [j1|e]; [|reflexivity]. simpl.
  rewrite !bind_run, (col_run _ _ _ _ Ha). unfold column.
  destruct (axis_index (ncols L) ymin) as [j0|e]; [|reflexivity]. simpl.
  rewrite ret_run. fuse. reflexivity.
Qed.

Lemma min_area_block_run :
  min_area_block ar self a xmin ymin xmax ymax (q <$> rows L) σ =
  ((fun p : list Q -> bool => p <$> rows L)
     <$> min_area_plan ar self (ncols L) xmin ymin xmax ymax q, σ).
Proof using Ha.
  unfold min_area_block, min_area_plan, resolve_cols.
  destruct (check_min_area self); [|reflexivity].
  destruct (axis_index_cases (ncols L) xmax) as [[i1 E1]|E1];
  destruct (axis_index_cases (ncols L) xmin) as [[i0 E0]|E0];
  destruct (axis_index_cases (ncols L) ymax) as [[j1 F1]|F1];
  destruct (axis_index_cases (ncols L) ymin) as [[j0 F0]|F0];
  run_reads Ha; try reflexivity.
  fuse. reflexivity.
Qed.

Variables image_height image_width : option Q.

Lemma center_point_branch_run :
  center_point_branch ar a image_height image_width xmin ymin xmax ymax
    (q <$> rows L) σ =
  ((fun p : list Q -> bool => p <$> rows L)
     <$> center_point_plan ar (ncols L) image_height image_width
           xmin ymin xmax ymax q, σ).
Proof using Ha.
  unfold center_point_branch, center_point_plan, resolve_cols.
  destruct (axis_index_cases (ncols L) xmax) as [[i1 E1]|E1];
  destruct (axis_index_cases (ncols L) xmin) as [[i0 E0]|E0];
  destruct (axis_index_cases (ncols L) ymax) as [[j1 F1]|F1];
  destruct (axis_index_cases (ncols L) ymin) as [[j0 F0]|F0];
  destruct image_height as [h|]; destruct image_width as [w|];
  run_reads Ha; try reflexivity.
  fuse. reflexivity.
Qed.

Variables lower upper : Q.

Lemma iou_branch_run :
  iou_branch self a image_height image_width xmin ymin xmax ymax
    lower upper (q <$> rows L) σ =
  ((fun p : list Q -> bool => p <$> rows L)
     <$> iou_plan self (ncols L) image_height image_width
           xmin ymin xmax ymax lower upper q, σ).
Proof using Ha.
  unfold iou_branch, iou_plan, resolve_cols, cols4, iou.
  destruct (axis_index_cases (ncols L) xmax) as [[i1 E1]|E1];
  destruct (axis_index_cases (ncols L) xmin) as [[i0 E0]|E0];
  destruct (axis_index_cases (ncols L) ymax) as [[j1 F1]|F1];
  destruct (axis_index_cases (ncols L) ymin) as [[j0 F0]|F0];
  destruct image_height as [h|]; destruct image_width as [w|];
  destruct (border_d (border_pixels self)) as [d|];
  run_reads Ha; try reflexivity.
  fuse. reflexivity.
Qed.

Lemma area_branch_run :
  exists extra : Store,
    area_branch ar self a image_height image_width xmin ymin xmax ymax
      lower upper (q <$> rows L) σ =
    ((fun p : list Q -> bool => p <$> rows L)
       <$> area_plan ar self (ncols L) image_height image_width
             xmin ymin xmax ymax lower upper q, σ ++ extra).
Proof using Ha.
  assert (Hb : forall C : Labels, (σ ++ [C]) !! a = Some L)
    by (intros C; by apply lookup_app_l_Some).
  unfold area_branch, area_plan.
  destruct (axis_index_cases (ncols L) xmax) as [[i1 E1]|E1];
    [|exists []; rewrite app_nil_r; run_reads Ha; reflexivity].
  destruct (axis_index_cases (ncols L) xmin) as [[i0 E0]|E0];
    [|exists []; rewrite app_nil_r; run_reads Ha; reflexivity].
  destruct (border_d (border_pixels self)) as [d|];
    [|exists []; rewrite app_nil_r; run_reads Ha; reflexivity].
  destruct (axis_index_cases (ncols L) ymax) as [[j1 F1]|F1];
    [|exists []; rewrite app_nil_r; run_reads Ha; reflexivity].
  destruct (axis_index_cases (ncols L) ymin) as [[j0 F0]|F0];
    [|exists []; rewrite app_nil_r; run_reads Ha; reflexivity].
  run_reads Ha. rewrite (np_copy_run _ _ _ Ha). unfold cols2.
  run_reads (Hb L).
  destruct image_height as [h|];
    [|exists [L]; run_reads (Hb L); reflexivity].
  run_reads (Hb L). unfold setcols2.
  repeat first [ rewrite bind_run | rewrite setcol_run_end
               | progress unfold set_column
               | match goal with
                 | E : axis_index _ _ = _ |- _ => rewrite E
                 end
               | progress simpl ].
  match goal with
  | |- context [σ ++ [?C]] => run_reads (Hb C)
  end.
  destruct image_width as [w|];
    [|eexists [_]; run_reads Ha; reflexivity].
  simpl.
  repeat first [ rewrite bind_run | rewrite setcol_run_end
               | rewrite col_run_end | rewrite ret_run
               | progress unfold set_column, column
               | match goal with
                 | E : axis_index _ _ = _ |- _ => rewrite E
                 end
               | progress simpl ].
  eexists [_]. f_equal. f_equal.
  unfold area_row. destruct (Qeq_bool lower 0); fuse; reflexivity.
Qed.
End BlockRuns.

(** ** The whole call, row by row *)

Section CallRuns.
Variable ar : Arith.
Variable self : BoxFilter.
Variables image_height image_width : option Q.

Lemma overlap_block_run (σ : Store) (a : loc) (L : Labels)
    (xmin ymin xmax ymax : Z) (q : list Q -> bool) :
  σ !! a = Some L ->
  exists extra : Store,
    overlap_block ar self a image_height image_width xmin ymin xmax ymax
      (q <$> rows L) σ =
    ((fun p : list Q -> bool => p <$> rows L)
       <$> overlap_plan ar self (ncols L) image_height image_width
             xmin ymin xmax ymax q, σ ++ extra).
Proof.
  intros Ha. unfold overlap_block, overlap_plan.
  destruct (check_overlap self);
    [|exists []; by rewrite app_nil_r].
  rewrite bind_run, lift_run.
  destruct (get_bounds (overlap_bounds self)) as [[lower upper]|e];
    [|exists []; by rewrite app_nil_r].
  simpl.
  destruct (String.eqb (overlap_criterion self) "iou").
  { exists []. rewrite app_nil_r. by apply iou_branch_run. }
  destruct (String.eqb (overlap_criterion self) "area").
  { by apply area_branch_run. }
  destruct (String.eqb (overlap_criterion self) "center_point").
  { exists []. rewrite app_nil_r. by apply center_point_branch_run. }
  exists []. by rewrite app_nil_r.
Qed.

Lemma requirements_met_run (σ : Store) (a : loc) (L : Labels) :
  σ !! a = Some L ->
  exists extra : Store,
    requirements_met ar self a image_height image_width σ =
    ((fun p : list Q -> bool => p <$> rows L)
       <$> row_plan ar self (ncols L) image_height image_width, σ ++ extra).
Proof.
  intros Ha. unfold requirements_met, row_plan, lookup_cols.
  destruct (dict_getitem (labels_format self) "xmin") as [xmin|e];
    [|exists []; by rewrite app_nil_r].
  destruct (dict_getitem (labels_format self) "ymin") as [ymin|e];
    [|exists []; by rewrite app_nil_r].
  destruct (dict_getitem (labels_format self) "xmax") as [xmax|e];
    [|exists []; by rewrite app_nil_r].
  destruct (dict_getitem (labels_format self) "ymax") as [ymax|e];
    [|exists []; by rewrite app_nil_r].
  destruct (degenerate_plan self (ncols L) xmin ymin xmax ymax (λ _, true))
    as [q1|e] eqn:E1.
  2: { exists []. rewrite app_nil_r. run_reads Ha.
       rewrite (shape0_run _ _ _ Ha), np_ones_rows. run_reads Ha.
       rewrite (degenerate_block_run _ _ _ _ Ha), E1. reflexivity. }
  destruct (min_area_plan ar self (ncols L) xmin ymin xmax ymax q1)
    as [q2|e] eqn:E2.
  2: { exists []. rewrite app_nil_r. run_reads Ha.
       rewrite (shape0_run _ _ _ Ha), np_ones_rows. run_reads Ha.
       rewrite (degenerate_block_run _ _ _ _ Ha), E1. run_reads Ha.
       rewrite (min_area_block_run ar _ _ _ _ Ha), E2. reflexivity. }
  destruct (overlap_block_run σ a L xmin ymin xmax ymax q2 Ha)
    as [extra Hov].
  exists extra. run_reads Ha.
  rewrite (shape0_run _ _ _ Ha), np_ones_rows. run_reads Ha.
  rewrite (degenerate_block_run _ _ _ _ Ha), E1. run_reads Ha.
  rewrite (min_area_block_run ar _ _ _ _ Ha), E2. run_reads Ha.
  exact Hov.
Qed.

(** A call on a table [L] allocates the copy of [L], possibly the
    clipped copy, and on success the table of the accepted rows; what
    the store held before is still there. *)
Lemma call_run (σ : Store) (labels : loc) (L : Labels) :
  σ !! labels = Some L ->
  exists extra : Store,
    call ar self labels image_height image_width σ =
    match row_plan ar self (ncols L) image_height image_width with
    | Ok p =>
        (Ok (length (σ ++ L :: extra)),
         (σ ++ L :: extra) ++ [mkLabels (ncols L) (List.filter p (rows L))])
    | Raise e => (Raise e, σ ++ L :: extra)
    end.
Proof.
  intros Ha. unfold call.
  rewrite bind_run, (np_copy_run _ _ _ Ha).
  destruct (requirements_met_run (σ ++ [L]) (length σ) L) as [extra Hrun];
    [by apply list_lookup_middle|].
  exists extra. rewrite bind_run, Hrun.
  rewrite <- app_assoc. simpl.
  destruct (row_plan ar self (ncols L) image_height image_width) as [p|e];
    [|reflexivity].
  simpl. rewrite (bool_index_run _ _ L), select_fmap; [reflexivity|].
  by apply list_lookup_middle.
Qed.

Lemma call_not_a_table (σ : Store) (labels : loc) :
  σ !! labels = None ->
  call ar self labels image_height image_width σ = (Raise IndexError, σ).
Proof.
  intros Ha. unfold call, np_copy, load. rewrite !bind_run. by rewrite Ha.
Qed.
End CallRuns.

(** ** What a successful call tells *)

Lemma call_ok_inv (ar : Arith) (self : BoxFilter) (h w : option Q)
    (σ σ' : Store) (labels out : loc) (L : Labels) :
  σ !! labels = Some L ->
  call ar self labels h w σ = (Ok out, σ') ->
  exists (p : list Q -> bool) (extra : Store),
    row_plan ar self (ncols L) h w = Ok p
    /\ out = length (σ ++ L :: extra)
    /\ σ' = (σ ++ L :: extra)
            ++ [mkLabels (ncols L) (List.filter p (rows L))].
Proof.
  intros Ha Hcall.
  destruct (call_run ar self h w σ labels L Ha) as [extra Hrun].
  rewrite Hrun in Hcall.
  destruct (row_plan ar self (ncols L) h w) as [p|e]; [|discriminate].
  exists p, extra. by inversion Hcall.
Qed.

Lemma call_ok_lookup (ar : Arith) (self : BoxFilter) (h w : option Q)
    (σ σ' : Store) (labels out : loc) (L : Labels) :
  σ !! labels = Some L ->
  call ar self labels h w σ = (Ok out, σ') ->
  exists p : list Q -> bool,
    row_plan ar self (ncols L) h w = Ok p
    /\ σ' !! out = Some (mkLabels (ncols L) (List.filter p (rows L))).
Proof.
  intros Ha Hcall.
  destruct (call_ok_inv ar _ _ _ _ _ _ _ _ Ha Hcall) as (p & extra & Hp & -> & ->).
  exists p. split; [done|]. by apply list_lookup_middle.
Qed.

Lemma call_extends_store (ar : Arith) (self : BoxFilter) (h w : option Q)
    (σ σ' : Store) (labels : loc) (r : result loc) :
  call ar self labels h w σ = (r, σ') -> σ `prefix_of` σ'.
Proof.
  intros Hcall. destruct (σ !! labels) as [L|] eqn:Ha.
  - destruct (call_run ar self h w σ labels L Ha) as [extra Hrun].
    rewrite Hrun in Hcall.
    destruct (row_plan ar self (ncols L) h w) as [p|e]; inversion Hcall; subst.
    + rewrite <- app_assoc. by apply prefix_app_r.
    + by apply prefix_app_r.
  - rewrite (call_not_a_table ar _ _ _ _ _ Ha) in Hcall. by inversion Hcall.
Qed.

Lemma call_on_plan (ar : Arith) (self : BoxFilter) (h w : option Q) (σ : Store)
    (labels : loc) (L : Labels) (p : list Q -> bool) :
  σ !! labels = Some L ->
  row_plan ar self (ncols L) h w = Ok p ->
  exists (out : loc) (σ' : Store),
    call ar self labels h w σ = (Ok out, σ')
    /\ σ' !! out = Some (mkLabels (ncols L) (List.filter p (rows L))).
Proof.
  intros Ha Hp. destruct (call_run ar self h w σ labels L Ha) as [extra Hrun].
  rewrite Hp in Hrun. eexists _, _. split; [exact Hrun|].
  by apply list_lookup_middle.
Qed.

(** ** The plans, block by block *)

Lemma resolve_cols_lt (n : nat) (xmin ymin xmax ymax : Z) (c : Cols) :
  resolve_cols n xmin ymin xmax ymax = Ok c ->
  (ixmin c < n /\ iymin c < n /\ ixmax c < n /\ iymax c < n)%nat.
Proof.
  unfold resolve_cols.
  destruct (axis_index n xmax) as [i1|] eqn:E1; [|discriminate].
  destruct (axis_index n xmin) as [i0|] eqn:E0; [|discriminate].
  destruct (axis_index n ymax) as [j1|] eqn:F1; [|discriminate].
  destruct (axis_index n ymin) as [j0|] eqn:F0; [|discriminate].
  simpl. intros [= <-]. simpl.
  repeat split; eapply axis_index_lt; eassumption.
Qed.

(** Case analysis on the steps of a plan that is known to succeed. *)
Ltac plan_cases :=
  repeat (match goal with
          | |- (?x ≫= _) = _ -> _ => destruct x eqn:?; simpl
          | |- (let (_, _) := ?x in _) = _ -> _ => destruct x eqn:?; simpl
          | |- match ?x with _ => _ end = _ -> _ => destruct x eqn:?; simpl
          end; try discriminate).

Section PlanFacts.
Variable ar : Arith.
Variable self : BoxFilter.
Variable n : nat.
Variables image_height image_width : option Q.
Variables xmin ymin xmax ymax : Z.
Variables q p : list Q -> bool.

Lemma degenerate_plan_on :
  check_degenerate self = true ->
  degenerate_plan self n xmin ymin xmax ymax q = Ok p ->
  exists c, resolve_cols n xmin ymin xmax ymax = Ok c
    /\ p = (fun r => q r && non_degenerate_row c r).
Proof.
  unfold degenerate_plan. intros ->.
  destruct (resolve_cols n xmin ymin xmax ymax) as [c|]; [|discriminate].
  simpl. intros [= <-]. eauto.
Qed.

Lemma degenerate_plan_off :
  check_degenerate self = false ->
  degenerate_plan self n xmin ymin xmax ymax q = Ok q.
Proof. unfold degenerate_plan. by intros ->. Qed.


Lemma degenerate_plan_le (r : list Q) :
  degenerate_plan self n xmin ymin xmax ymax q = Ok p ->
  p r = true -> q r = true.
Proof.
  unfold degenerate_plan. destruct (check_degenerate self).
  - destruct (resolve_cols n xmin ymin xmax ymax) as [c|]; [|discriminate].
    simpl. intros [= <-] H. by apply andb_prop in H as [? _].
  - by intros [= <-].
Qed.

Lemma min_area_plan_le (r : list Q) :
  min_area_plan ar self n xmin ymin xmax ymax q = Ok p ->
  p r = true -> q r = true.
Proof.
  unfold min_area_plan. destruct (check_min_area self).
  - destruct (resolve_cols n xmin ymin xmax ymax) as [c|]; [|discriminate].
    simpl. intros [= <-] H. by apply andb_prop in H as [? _].
  - by intros [= <-].
Qed.

Lemma overlap_plan_le (r : list Q) :
  overlap_plan ar self n image_height image_width xmin ymin xmax ymax q = Ok p ->
  p r = true -> q r = true.
Proof.
  unfold overlap_plan, iou_plan, area_plan, center_point_plan.
  intros Hp Hr. revert Hp. plan_cases;
    intros [= Hp]; rewrite <- Hp in Hr; try done;
    by apply andb_prop in Hr as [? _].
Qed.
End PlanFacts.

Lemma row_plan_inv (ar : Arith) (self : BoxFilter) (n : nat) (h w : option Q)
    (p : list Q -> bool) :
  row_plan ar self n h w = Ok p ->
  exists xmin ymin xmax ymax q1 q2,
    lookup_cols self = Ok (xmin, ymin, xmax, ymax)
    /\ degenerate_plan self n xmin ymin xmax ymax (fun _ => true) = Ok q1
    /\ min_area_plan ar self n xmin ymin xmax ymax q1 = Ok q2
    /\ overlap_plan ar self n h w xmin ymin xmax ymax q2 = Ok p.
Proof.
  unfold row_plan.
  destruct (lookup_cols self) as [[[[xmin ymin] xmax] ymax]|]; [|discriminate].
  simpl.
  destruct (degenerate_plan self n xmin ymin xmax ymax _) as [q1|] eqn:E1;
    [|discriminate]. simpl.
  destruct (min_area_plan ar self n xmin ymin xmax ymax q1) as [q2|] eqn:E2;
    [|discriminate]. simpl.
  intros Hp. by exists xmin, ymin, xmax, ymax, q1, q2.
Qed.

Lemma resolve_cols_inv (n : nat) (xmin ymin xmax ymax : Z) (c : Cols) :
  resolve_cols n xmin ymin xmax ymax = Ok c ->
  axis_index n xmax = Ok (ixmax c) /\ axis_index n xmin = Ok (ixmin c)
  /\ axis_index n ymax = Ok (iymax c) /\ axis_index n ymin = Ok (iymin c).
Proof.
  unfold resolve_cols.
  destruct (axis_index n xmax) as [i1|]; [|discriminate].
  destruct (axis_index n xmin) as [i0|]; [|discriminate].
  destruct (axis_index n ymax) as [j1|]; [|discriminate].
  destruct (axis_index n ymin) as [j0|]; [|discriminate].
  simpl. by intros [= <-].
Qed.

(** A call on a table raises nothing when the layout names four columns
    of the table and the overlap block, if enabled, has what it needs. *)
Lemma row_plan_ok (ar : Arith) (self : BoxFilter) (n : nat) (h w : option Q)
    (xmin ymin xmax ymax : Z) (c : Cols) :
  lookup_cols self = Ok (xmin, ymin, xmax, ymax) ->
  resolve_cols n xmin ymin xmax ymax = Ok c ->
  (check_overlap self = true -> overlap_ready self h w) ->
  exists p : list Q -> bool, row_plan ar self n h w = Ok p.
Proof.
  intros Hks Hc Hready.
  unfold row_plan, degenerate_plan, min_area_plan. rewrite Hks. simpl.
  rewrite Hc.
  assert (Hov : forall q, exists p,
             overlap_plan ar self n h w xmin ymin xmax ymax q = Ok p).
  { intros q. unfold overlap_plan.
    destruct (check_overlap self); [|by eauto].
    destruct (Hready eq_refl)
      as ((lower & upper & ->) & (hv & wv & -> & ->) & (d & Hd)).
    simpl. unfold iou_plan, area_plan, center_point_plan. rewrite Hc.
    destruct (resolve_cols_inv _ _ _ _ _ _ Hc) as (-> & -> & -> & ->).
    rewrite Hd. simpl.
    repeat (case_match; eauto). }
  destruct (check_degenerate self), (check_min_area self); simpl; apply Hov.
Qed.

(** ** Properties of the returned table *)

Lemma filter_filter_same {A : Type} (p : A -> bool) (l : list A) :
  List.filter p (List.filter p l) = List.filter p l.
Proof.
  induction l as [|x l IH]; [done|]. simpl.
  destruct (p x) eqn:E; [|done]. simpl. by rewrite E, IH.
Qed.

Lemma select_sublist (mask : list bool) (rs : list (list Q)) :
  select mask rs `sublist_of` rs.
Proof.
  revert rs. induction mask as [|b mask IH]; intros [|r rs]; simpl;
    try apply sublist_nil_l.
  destruct b; [by apply sublist_skip|by apply sublist_cons].
Qed.

Lemma elem_of_select (mask : list bool) (rs : list (list Q)) (r : list Q) :
  r ∈ select mask rs <->
  exists i : nat, rs !! i = Some r /\ mask !! i = Some true.
Proof.
  revert rs. induction mask as [|b mask IH]; intros [|x rs]; simpl.
  - split; [by intros ?%elem_of_nil|by intros (i & ? & ?)].
  - split; [by intros ?%elem_of_nil|by intros (i & ? & ?)].
  - split; [by intros ?%elem_of_nil|by intros (i & ? & ?)].
  - destruct b.
    + rewrite elem_of_cons, IH. split.
      * intros [->|(i & ? & ?)]; [by exists 0%nat|by exists (S i)].
      * intros ([|i] & Hr & Hm); simpl in *; [left; congruence|right; eauto].
    + rewrite IH. split.
      * intros (i & ? & ?). by exists (S i).
      * intros ([|i] & Hr & Hm); simpl in *; [congruence|eauto].
Qed.

(** C8. A call on a table, when its configuration raises nothing, returns
    a new table that holds exactly the rows whose entry in the acceptance
    mask is true, unchanged and in their original order (a subsequence of
    the rows of the input); whatever the outcome, the tables the store
    held before the call, the input among them, are still what they
    were. *)
Theorem call_returns_accepted_rows (ar : Arith) (self : BoxFilter)
    (h w : option Q) (σ σ' : Store) (labels : loc) (L : Labels)
    (res : result loc) (xmin ymin xmax ymax : Z) (c : Cols) :
  σ !! labels = Some L ->
  call ar self labels h w σ = (res, σ') ->
  (forall (a : loc) (X : Labels), σ !! a = Some X -> σ' !! a = Some X)
  /\ (lookup_cols self = Ok (xmin, ymin, xmax, ymax) ->
      resolve_cols (ncols L) xmin ymin xmax ymax = Ok c ->
      (check_overlap self = true -> overlap_ready self h w) ->
      exists out : loc, res = Ok out)
  /\ (forall out : loc, res = Ok out ->
      σ !! out = None
      /\ exists (mask : list bool) (σm : Store),
           requirements_met ar self (length σ) h w (σ ++ [L]) = (Ok mask, σm)
           /\ length mask = length (rows L)
           /\ σ' !! out = Some (mkLabels (ncols L) (select mask (rows L)))
           /\ select mask (rows L) `sublist_of` rows L
           /\ (forall r : list Q,
                 r ∈ select mask (rows L) <->
                 exists i : nat,
                   rows L !! i = Some r /\ mask !! i = Some true)).
Proof.
  intros Ha Hcall. split; [|split].
  - intros a X HX. eapply prefix_lookup_Some; [exact HX|].
    eapply call_extends_store; exact Hcall.
  - intros Hks Hc Hready.
    destruct (row_plan_ok ar self (ncols L) h w _ _ _ _ c Hks Hc Hready)
      as [p Hp].
    destruct (call_run ar self h w σ labels L Ha) as [extra Hrun].
    rewrite Hp, Hcall in Hrun. injection Hrun as -> _. eauto.
  - intros out ->.
    destruct (call_ok_inv ar _ _ _ _ _ _ _ _ Ha Hcall)
      as (p & extra & Hp & -> & ->).
    split.
    { apply lookup_ge_None. rewrite length_app. lia. }
    destruct (requirements_met_run ar self h w (σ ++ [L]) (length σ) L)
      as [extra' Hrun]; [by apply list_lookup_middle|].
    rewrite Hp in Hrun. simpl in Hrun.
    exists (p <$> rows L), ((σ ++ [L]) ++ extra').
    split; [exact Hrun|]. split; [by rewrite length_fmap|].
    rewrite select_fmap. split; [by apply list_lookup_middle|].
    split; [rewrite <- select_fmap; by apply select_sublist|].
    intros r. rewrite <- select_fmap. by apply elem_of_select.
Qed.

Lemma call_returns_accepted_rows_witness :
  [scenario_labels; scenario_labels; mkLabels 5 [[0; 10; 10; 50; 50]]]
    !! 0%nat = Some scenario_labels
  /\ (exists out : loc, Ok 2%nat = Ok out)
  /\ [scenario_labels] !! 2%nat = None
  /\ exists (mask : list bool) (σm : Store),
       requirements_met exact_arith default_filter 1 (Some region_height)
         (Some region_width) [scenario_labels; scenario_labels]
       = (Ok mask, σm)
       /\ length mask = 3%nat
       /\ [scenario_labels; scenario_labels;
           mkLabels 5 [[0; 10; 10; 50; 50]]] !! 2%nat
          = Some (mkLabels 5 (select mask (rows scenario_labels)))
       /\ select mask (rows scenario_labels)
            `sublist_of` rows scenario_labels
       /\ (forall r : list Q,
             r ∈ select mask (rows scenario_labels) <->
             exists i : nat,
               rows scenario_labels !! i = Some r
               /\ mask !! i = Some true).
Proof.
  assert (Hcall : call exact_arith default_filter 0 (Some region_height)
                    (Some region_width) [scenario_labels]
                  = (Ok 2%nat,
                     [scenario_labels; scenario_labels;
                      mkLabels 5 [[0; 10; 10; 50; 50]]]))
    by (vm_compute; reflexivity).
  assert (Hready : check_overlap default_filter = true ->
                   overlap_ready default_filter (Some region_height)
                     (Some region_width)).
  { intros _. split; [|split].
    - exists (3 # 10), 1. reflexivity.
    - exists region_height, region_width. split; reflexivity.
    - exists 0. reflexivity. }
  destruct (call_returns_accepted_rows exact_arith default_filter (Some region_height)
              (Some region_width) [scenario_labels] _ 0%nat scenario_labels
              (Ok 2%nat) 1 2 3 4 (mkCols 1 2 3 4) eq_refl Hcall)
    as (Hkept & Hok & Hout).
  split; [exact (Hkept 0%nat scenario_labels eq_refl)|].
  split; [exact (Hok eq_refl eq_refl Hready)|].
  exact (Hout 2%nat eq_refl).
Defined.

(** C9. Applying the filter to its own output, with the same configuration
    and region, succeeds and returns a table equal to that output. *)
Theorem call_idempotent (ar : Arith) (self : BoxFilter) (h w : option Q)
    (σ σ1 : Store) (labels out : loc) (L : Labels) :
  σ !! labels = Some L ->
  call ar self labels h w σ = (Ok out, σ1) ->
  exists (out2 : loc) (σ2 : Store) (L1 : Labels),
    call ar self out h w σ1 = (Ok out2, σ2)
    /\ σ1 !! out = Some L1
    /\ σ2 !! out2 = Some L1.
Proof.
  intros Ha Hcall.
  destruct (call_ok_lookup ar _ _ _ _ _ _ _ _ Ha Hcall) as (p & Hp & Hout).
  set (L1 := mkLabels (ncols L) (List.filter p (rows L))) in *.
  destruct (call_run ar self h w σ1 out L1 Hout) as [extra Hrun].
  change (ncols L1) with (ncols L) in Hrun. rewrite Hp in Hrun.
  eexists _, _, L1. split; [exact Hrun|]. split; [exact Hout|].
  rewrite list_lookup_middle by reflexivity.
  unfold L1. simpl. by rewrite filter_filter_same.
Qed.

Lemma call_idempotent_witness :
  exists (out2 : loc) (σ2 : Store) (L1 : Labels),
    call exact_arith default_filter 2 (Some region_height) (Some region_width)
      [scenario_labels; scenario_labels; mkLabels 5 [[0; 10; 10; 50; 50]]]
    = (Ok out2, σ2)
    /\ [scenario_labels; scenario_labels;
        mkLabels 5 [[0; 10; 10; 50; 50]]] !! 2%nat = Some L1
    /\ σ2 !! out2 = Some L1.
Proof.
  apply (call_idempotent exact_arith default_filter (Some region_height)
           (Some region_width) [scenario_labels] _ 0%nat 2%nat
           scenario_labels).
  - reflexivity.
  - vm_compute. reflexivity.
Defined.

(** ** Calls without the overlap check *)

Lemma row_plan_without_overlap (ar : Arith) (self : BoxFilter) (n : nat)
    (h w : option Q) (xmin ymin xmax ymax : Z) (c : Cols) :
  check_overlap self = false ->
  lookup_cols self = Ok (xmin, ymin, xmax, ymax) ->
  resolve_cols n xmin ymin xmax ymax = Ok c ->
  exists p : list Q -> bool, row_plan ar self n h w = Ok p.
Proof.
  intros Hov Hks Hc.
  unfold row_plan, degenerate_plan, min_area_plan, overlap_plan.
  rewrite Hks, Hov. simpl. rewrite Hc.
  destruct (check_degenerate self), (check_min_area self); simpl; eauto.
Qed.

(** C10. With the overlap check disabled the outcome of a call does not
    depend on the region dimensions, given or absent: any two calls on
    the same table agree; and the call without dimensions succeeds as
    soon as the layout names four columns of the table. *)
Theorem call_without_overlap_ignores_region (ar : Arith) (self : BoxFilter)
    (σ : Store) (labels : loc) (L : Labels) (xmin ymin xmax ymax : Z)
    (c : Cols) :
  check_overlap self = false ->
  (forall h w h' w' : option Q,
      call ar self labels h w σ = call ar self labels h' w' σ)
  /\ (σ !! labels = Some L ->
      lookup_cols self = Ok (xmin, ymin, xmax, ymax) ->
      resolve_cols (ncols L) xmin ymin xmax ymax = Ok c ->
      exists (out : loc) (σ' : Store),
        call ar self labels None None σ = (Ok out, σ')).
Proof.
  intros Hov. split.
  - intros h w h' w'.
    unfold call, requirements_met, overlap_block. by rewrite Hov.
  - intros Ha Hks Hc.
    destruct (call_run ar self None None σ labels L Ha) as [extra Hrun].
    destruct (row_plan_without_overlap ar self (ncols L) None None
                _ _ _ _ c Hov Hks Hc) as [p Hp].
    rewrite Hp in Hrun. eauto.
Qed.

Lemma call_without_overlap_ignores_region_witness :
  (forall h w h' w' : option Q,
      call exact_arith size_filter 0 h w [scenario_labels]
      = call exact_arith size_filter 0 h' w' [scenario_labels])
  /\ (exists (out : loc) (σ' : Store),
        call exact_arith size_filter 0 None None [scenario_labels] = (Ok out, σ')).
Proof.
  destruct (call_without_overlap_ignores_region exact_arith size_filter
              [scenario_labels] 0%nat scenario_labels 1 2 3 4
              (mkCols 1 2 3 4) eq_refl) as [Hsame Hok].
  split; [exact Hsame|].
  apply Hok; reflexivity.
Defined.

Example call_without_region_scenario :
  call exact_arith size_filter 0 None None [scenario_labels]
  = (Ok 2%nat,
     [scenario_labels; scenario_labels; mkLabels 5 [[0; 10; 10; 50; 50]]]).
Proof. vm_compute. reflexivity. Qed.

(** ** The degenerate and minimum-area checks *)




(** What a block adds to the mask it receives. *)

Lemma min_area_plan_factor (ar : Arith) (self : BoxFilter) (n : nat)
    (xmin ymin xmax ymax : Z) (q p : list Q -> bool) :
  min_area_plan ar self n xmin ymin xmax ymax q = Ok p ->
  exists p0 : list Q -> bool,
    min_area_plan ar self n xmin ymin xmax ymax (fun _ => true) = Ok p0
    /\ forall r, p r = q r && p0 r.
Proof.
  unfold min_area_plan. plan_cases; intros [= <-]; eexists;
    (split; [reflexivity|]); intros r; simpl; [done|by rewrite andb_true_r].
Qed.

Lemma overlap_plan_factor (ar : Arith) (self : BoxFilter) (n : nat)
    (h w : option Q) (xmin ymin xmax ymax : Z) (q p : list Q -> bool) :
  overlap_plan ar self n h w xmin ymin xmax ymax q = Ok p ->
  exists p0 : list Q -> bool,
    overlap_plan ar self n h w xmin ymin xmax ymax (fun _ => true) = Ok p0
    /\ forall r, p r = q r && p0 r.
Proof.
  unfold overlap_plan, iou_plan, area_plan, center_point_plan.
  plan_cases; intros [= <-]; eexists;
    (split; [reflexivity|]); intros r; simpl;
    try done; by rewrite andb_true_r.
Qed.

(** The scenario of the degenerate check: the box [(20, 20, 20, 40)], whose
    center lies in the region, is dropped when the check is on and kept
    when it alone is switched off and no other check excludes the box. *)
Example degenerate_scenario :
  call exact_arith (mkBoxFilter true false true "center_point" default_overlap_bounds
          16 default_labels_format "half") 0
    (Some region_height) (Some region_width) [mkLabels 5 [[2; 20; 20; 20; 40]]]
  = (Ok 2%nat,
     [mkLabels 5 [[2; 20; 20; 20; 40]]; mkLabels 5 [[2; 20; 20; 20; 40]];
      mkLabels 5 []])
  /\ call exact_arith (mkBoxFilter true false false "center_point" default_overlap_bounds
             16 default_labels_format "half") 0
       (Some region_height) (Some region_width)
       [mkLabels 5 [[2; 20; 20; 20; 40]]]
     = (Ok 2%nat,
        [mkLabels 5 [[2; 20; 20; 20; 40]]; mkLabels 5 [[2; 20; 20; 20; 40]];
         mkLabels 5 [[2; 20; 20; 20; 40]]]).
Proof. split; vm_compute; reflexivity. Qed.

(** C7. A row with [xmax <= xmin] or [ymax <= ymin] is not in the returned
    table when the degenerate check is on; when it is off, the returned
    table holds exactly the rows that the minimum-area block and the
    overlap block accept, degenerate or not. *)
Theorem degenerate_check_excludes (ar : Arith) (self : BoxFilter)
    (h w : option Q) (σ σ' : Store) (labels out : loc) (L : Labels) :
  σ !! labels = Some L ->
  call ar self labels h w σ = (Ok out, σ') ->
  (check_degenerate self = true ->
   exists (xmin ymin xmax ymax : Z) (c : Cols) (L' : Labels),
     lookup_cols self = Ok (xmin, ymin, xmax, ymax)
     /\ resolve_cols (ncols L) xmin ymin xmax ymax = Ok c
     /\ σ' !! out = Some L'
     /\ forall r : list Q,
          fld (ixmax c) r <= fld (ixmin c) r
          \/ fld (iymax c) r <= fld (iymin c) r ->
          r ∉ rows L')
  /\ (check_degenerate self = false ->
      exists (xmin ymin xmax ymax : Z) (area_ok overlap_ok : list Q -> bool),
        lookup_cols self = Ok (xmin, ymin, xmax, ymax)
        /\ min_area_plan ar self (ncols L) xmin ymin xmax ymax (fun _ => true)
           = Ok area_ok
        /\ overlap_plan ar self (ncols L) h w xmin ymin xmax ymax (fun _ => true)
           = Ok overlap_ok
        /\ σ' !! out
           = Some (mkLabels (ncols L)
                     (List.filter (fun r => area_ok r && overlap_ok r)
                        (rows L)))).
Proof.
  intros Ha Hcall.
  destruct (call_ok_lookup ar _ _ _ _ _ _ _ _ Ha Hcall) as (p & Hp & Hout).
  destruct (row_plan_inv ar _ _ _ _ _ Hp)
    as (xmin & ymin & xmax & ymax & q1 & q2 & Hks & Hq1 & Hq2 & Hq3).
  split; intros Hflag.
  - destruct (degenerate_plan_on _ _ _ _ _ _ _ _ Hflag Hq1) as (c & Hc & Hq1').
    exists xmin, ymin, xmax, ymax, c,
      (mkLabels (ncols L) (List.filter p (rows L))).
    repeat (split; [done|]).
    intros r Hdeg Hin. simpl in Hin.
    apply list_elem_of_In, filter_In in Hin as [_ Hpr].
    apply (overlap_plan_le ar _ _ _ _ _ _ _ _ _ _ _ Hq3) in Hpr.
    apply (min_area_plan_le ar _ _ _ _ _ _ _ _ _ Hq2) in Hpr.
    rewrite Hq1' in Hpr. simpl in Hpr.
    unfold non_degenerate_row in Hpr.
    apply andb_prop in Hpr as [Hx Hy].
    apply Qgtb_lt in Hx. apply Qgtb_lt in Hy.
    destruct Hdeg as [Hle|Hle];
      [exact (Qlt_not_le _ _ Hx Hle)|exact (Qlt_not_le _ _ Hy Hle)].
  - rewrite (degenerate_plan_off _ _ _ _ _ _ _ Hflag) in Hq1.
    injection Hq1 as <-.
    destruct (min_area_plan_factor ar _ _ _ _ _ _ _ _ Hq2) as (a0 & Ha0 & Hfa).
    destruct (overlap_plan_factor ar _ _ _ _ _ _ _ _ _ _ Hq3)
      as (o0 & Ho0 & Hfo).
    exists xmin, ymin, xmax, ymax, a0, o0.
    repeat (split; [done|]).
    rewrite Hout. do 2 f_equal. apply List.filter_ext.
    intros r. by rewrite Hfo, Hfa.
Qed.

Lemma degenerate_check_excludes_witness :
  exists L' : Labels,
    [scenario_labels; scenario_labels;
     mkLabels 5 [[0; 10; 10; 50; 50]]] !! 2%nat = Some L'
    /\ [2; 20; 20; 20; 40] ∉ rows L'.
Proof.
  assert (Hcall : call exact_arith default_filter 0 (Some region_height)
                    (Some region_width) [scenario_labels]
                  = (Ok 2%nat,
                     [scenario_labels; scenario_labels;
                      mkLabels 5 [[0; 10; 10; 50; 50]]]))
    by (vm_compute; reflexivity).
  destruct (degenerate_check_excludes exact_arith default_filter (Some region_height)
              (Some region_width) [scenario_labels] _ 0%nat 2%nat
              scenario_labels eq_refl Hcall) as [Hon _].
  destruct (Hon eq_refl)
    as (xmin & ymin & xmax & ymax & c & L' & Hks & Hc & HL' & Hdeg).
  exists L'. split; [exact HL'|].
  vm_compute in Hks. injection Hks as <- <- <- <-.
  vm_compute in Hc. injection Hc as <-.
  apply Hdeg. left. vm_compute. discriminate.
Defined.

(** ** The center-point criterion *)

Section CenterPoint.
Variable ar : Arith.
Variable self : BoxFilter.
Variables height width : Q.
Variable σ : Store.
Variable a : loc.
Variable L : Labels.
Variables xmin ymin xmax ymax : Z.
Variable c : Cols.
Variables lower upper : Q.
Hypothesis Hcheck : check_overlap self = true.
Hypothesis Hcrit : overlap_criterion self = "center_point".
Hypothesis Hbounds : get_bounds (overlap_bounds self) = Ok (lower, upper).
Hypothesis Ha : σ !! a = Some L.
Hypothesis Hc : resolve_cols (ncols L) xmin ymin xmax ymax = Ok c.


End CenterPoint.




(** ** The IoU criterion *)

Section Iou.
Variable ar : Arith.
Variable self : BoxFilter.
Variables height width : Q.
Variable σ : Store.
Variable a : loc.
Variable L : Labels.
Variables xmin ymin xmax ymax : Z.
Variable c : Cols.
Variables lower upper d : Q.
Hypothesis Hcheck : check_overlap self = true.
Hypothesis Hcrit : overlap_criterion self = "iou".
Hypothesis Hbounds : get_bounds (overlap_bounds self) = Ok (lower, upper).
Hypothesis Hd : border_d (border_pixels self) = Some d.
Hypothesis Ha : σ !! a = Some L.
Hypothesis Hc : resolve_cols (ncols L) xmin ymin xmax ymax = Ok c.

Lemma iou_mask :
  overlap_block ar self a (Some height) (Some width) xmin ymin xmax ymax
    (np_ones (length (rows L))) σ
  = (Ok (iou_row c d width height lower upper <$> rows L), σ).
Proof using Hcheck Hcrit Hbounds Hd Ha Hc.
  unfold overlap_block.
  rewrite Hcheck, bind_run, lift_run, Hbounds. simpl.
  rewrite Hcrit. simpl.
  rewrite np_ones_rows, (iou_branch_run _ _ _ _ Ha).
  unfold iou_plan. rewrite Hc. simpl. rewrite Hd. reflexivity.
Qed.

(** The values [iou] returns for the region rectangle
    [(0, 0, width, height)] and the boxes of the table. *)
Lemma iou_region_values :
  iou [Some 0; Some 0; Some width; Some height] (corners c <$> rows L)
    (border_pixels self)
  = Ok (iou_value c d width height <$> rows L).
Proof using Hd.
  unfold iou. rewrite Hd. simpl. by rewrite <- list_fmap_compose.
Qed.

Lemma iou_row_spec (r : list Q) :
  iou_row c d width height lower upper r = true <->
  lower < iou_value c d width height r
  /\ iou_value c d width height r <= upper.
Proof.
  unfold iou_row. by rewrite andb_true_iff, Qgtb_lt, Qle_bool_iff.
Qed.
End Iou.

(** C3. With the criterion [iou] the overlap check accepts a box exactly
    when its IoU [v] with the region rectangle [(0, 0, width, height)] has
    [lower < v] and [v <= upper]: the lower bound is exclusive and the
    upper bound inclusive, so a box with [v] equal to [upper] is accepted
    (the window being non-empty) and a box with [v] equal to [lower] is
    rejected. *)
Theorem iou_accepts (ar : Arith) :
  (forall (self : BoxFilter) (height width : Q) (σ : Store) (a : loc)
          (L : Labels) (xmin ymin xmax ymax : Z) (c : Cols)
          (lower upper d : Q),
      check_overlap self = true ->
      overlap_criterion self = "iou" ->
      get_bounds (overlap_bounds self) = Ok (lower, upper) ->
      border_d (border_pixels self) = Some d ->
      σ !! a = Some L ->
      lookup_cols self = Ok (xmin, ymin, xmax, ymax) ->
      resolve_cols (ncols L) xmin ymin xmax ymax = Ok c ->
      exists (values : list Q) (mask : list bool),
        iou [Some 0; Some 0; Some width; Some height] (corners c <$> rows L)
          (border_pixels self) = Ok values
        /\ overlap_block ar self a (Some height) (Some width)
             xmin ymin xmax ymax (np_ones (length (rows L))) σ
           = (Ok mask, σ)
        /\ length values = length (rows L)
        /\ length mask = length (rows L)
        /\ forall (i : nat) (v : Q),
             values !! i = Some v ->
             (mask !! i = Some true <-> lower < v /\ v <= upper)
             /\ (v == upper -> lower < upper -> mask !! i = Some true)
             /\ (v == lower -> mask !! i = Some false))
  /\ ((exists v1 v2 : Q,
         iou [Some 0; Some 0; Some region_width; Some region_height]
           [[0; 0; 480; 300]; [0; 0; 144; 300]] "half"
         = Ok [v1; v2]
         /\ v1 == 1 /\ v2 == 3 # 10)
      /\ call ar (mkBoxFilter true false false "iou" default_overlap_bounds 16
                 default_labels_format "half") 0
           (Some region_height) (Some region_width)
           [mkLabels 5 [[0; 0; 0; 480; 300]; [1; 0; 0; 144; 300]]]
         = (Ok 2%nat,
            [mkLabels 5 [[0; 0; 0; 480; 300]; [1; 0; 0; 144; 300]];
             mkLabels 5 [[0; 0; 0; 480; 300]; [1; 0; 0; 144; 300]];
             mkLabels 5 [[0; 0; 0; 480; 300]]])).
Proof.
  split.
  { intros self height width σ a L xmin ymin xmax ymax c lower upper d
      Hcheck Hcrit Hbounds Hd Ha _ Hc.
    exists (iou_value c d width height <$> rows L),
           (iou_row c d width height lower upper <$> rows L).
    split; [by apply iou_region_values|].
    split; [by apply (iou_mask ar self height width σ a L xmin ymin xmax ymax c
                        lower upper d)|].
    split; [by rewrite length_fmap|]. split; [by rewrite length_fmap|].
    intros i v. rewrite !list_lookup_fmap.
    destruct (rows L !! i) as [r|]; simpl; [|done]. intros [= <-].
    assert (Hiff : Some (iou_row c d width height lower upper r) = Some true <->
                   lower < iou_value c d width height r
                   /\ iou_value c d width height r <= upper).
    { rewrite <- iou_row_spec. split; congruence. }
    split; [exact Hiff|]. split.
    - intros Hv Hlt. apply Hiff. split; lra.
    - intros Hv.
      destruct (iou_row c d width height lower upper r) eqn:E; [|done].
      apply iou_row_spec in E as [E _]. lra. }
  split; [|vm_compute; reflexivity].
  exists (144000 # 144000), (43200 # 144000).
  split; [vm_compute; reflexivity|]. split; reflexivity.
Qed.

Lemma iou_accepts_witness :
  exists mask : list bool,
    overlap_block exact_arith
      (mkBoxFilter true false false "iou" default_overlap_bounds 16
         default_labels_format "half") 0 (Some 300) (Some 480) 1 2 3 4
      (np_ones 2) [mkLabels 5 [[0; 0; 0; 480; 300]; [1; 0; 0; 144; 300]]]
    = (Ok mask, [mkLabels 5 [[0; 0; 0; 480; 300]; [1; 0; 0; 144; 300]]])
    /\ mask !! 0%nat = Some true
    /\ mask !! 1%nat = Some false.
Proof.
  destruct (proj1 (iou_accepts exact_arith)
              (mkBoxFilter true false false "iou" default_overlap_bounds 16
                 default_labels_format "half") 300 480
              [mkLabels 5 [[0; 0; 0; 480; 300]; [1; 0; 0; 144; 300]]] 0%nat
              (mkLabels 5 [[0; 0; 0; 480; 300]; [1; 0; 0; 144; 300]])
              1%Z 2%Z 3%Z 4%Z (mkCols 1 2 3 4) (3 # 10) 1 0
              eq_refl eq_refl eq_refl eq_refl eq_refl eq_refl eq_refl)
    as (values & mask & Hvalues & Hrun & _ & _ & Hrows).
  exists mask. split; [exact Hrun|].
  vm_compute in Hvalues. injection Hvalues as <-.
  split.
  - destruct (Hrows 0%nat (144000 # 144000) eq_refl) as (_ & Hin & _).
    apply Hin; vm_compute; reflexivity.
  - destruct (Hrows 1%nat (43200 # 144000) eq_refl) as (_ & _ & Hout).
    apply Hout. vm_compute. reflexivity.
Defined.

(** ** The area criterion *)

(** Reading a row after a write to one of its columns. *)
Lemma fld_insert_eq (i : nat) (x : Q) (r : list Q) :
  (i < length r)%nat -> fld i (<[i:=x]> r) = x.
Proof.
  intros H. unfold fld. rewrite nth_lookup.
  by rewrite list_lookup_insert_eq.
Qed.

Lemma fld_insert_ne (i j : nat) (x : Q) (r : list Q) :
  i <> j -> fld i (<[j:=x]> r) = fld i r.
Proof.
  intros H. unfold fld. rewrite !nth_lookup.
  by rewrite list_lookup_insert_ne.
Qed.

Lemma intersection_row_spec (ar : Arith) (c : Cols) (d hmax wmax : Q)
    (r : list Q) :
  xy_apart c ->
  (ixmin c < length r)%nat -> (iymin c < length r)%nat ->
  (ixmax c < length r)%nat -> (iymax c < length r)%nat ->
  intersection_row ar c d hmax wmax r
  = spec_intersection_area ar d hmax wmax
      (fld (ixmin c) r) (fld (iymin c) r) (fld (ixmax c) r) (fld (iymax c) r).
Proof.
  intros (H1 & H2 & H3 & H4) Lx0 Ly0 Lx1 Ly1.
  unfold intersection_row, box_area_row, clipped_row, spec_intersection_area,
    spec_box_area.
  assert (Ex1 : forall s : list Q, (ixmax c < length s)%nat ->
            fld (ixmax c) (<[ixmax c:=arr_clip ar 0 wmax (fld (ixmax c) r)]> s)
            = arr_clip ar 0 wmax (fld (ixmax c) r))
    by (intros; by apply fld_insert_eq).
  rewrite Ex1 by (by rewrite !length_insert).
  rewrite (fld_insert_ne (iymax c) (ixmax c)) by done.
  rewrite (fld_insert_ne (iymax c) (ixmin c)) by done.
  rewrite (fld_insert_eq (iymax c)) by (by rewrite !length_insert).
  rewrite (fld_insert_ne (iymin c) (ixmax c)) by done.
  rewrite (fld_insert_ne (iymin c) (ixmin c)) by done.
  assert (Ex0 : fld (ixmin c)
            (<[ixmax c:=arr_clip ar 0 wmax (fld (ixmax c) r)]>
               (<[ixmin c:=arr_clip ar 0 wmax (fld (ixmin c) r)]>
                  (<[iymax c:=arr_clip ar 0 hmax (fld (iymax c) r)]>
                     (<[iymin c:=arr_clip ar 0 hmax (fld (iymin c) r)]> r))))
            = arr_clip ar 0 wmax (fld (ixmin c) r)).
  { destruct (decide (ixmin c = ixmax c)) as [E|E].
    - rewrite <- E. apply fld_insert_eq. by rewrite !length_insert.
    - rewrite fld_insert_ne by done. apply fld_insert_eq.
      by rewrite !length_insert. }
  assert (Ey0 : fld (iymin c)
            (<[iymax c:=arr_clip ar 0 hmax (fld (iymax c) r)]>
               (<[iymin c:=arr_clip ar 0 hmax (fld (iymin c) r)]> r))
            = arr_clip ar 0 hmax (fld (iymin c) r)).
  { destruct (decide (iymin c = iymax c)) as [E|E].
    - rewrite <- E. apply fld_insert_eq. by rewrite !length_insert.
    - rewrite fld_insert_ne by done. by apply fld_insert_eq. }
  by rewrite Ex0, Ey0.
Qed.

Lemma area_row_spec (ar : Arith) (c : Cols) (d lower upper hmax wmax : Q)
    (r : list Q) :
  area_row ar c d lower upper hmax wmax r = true <->
  spec_area_accepts ar lower upper (box_area_row ar c d r)
    (intersection_row ar c d hmax wmax r).
Proof.
  unfold area_row, spec_area_accepts.
  rewrite andb_true_iff, Qle_bool_iff.
  destruct (Qeq_bool lower 0) eqn:E.
  - apply Qeq_bool_iff in E. rewrite Qgtb_lt. tauto.
  - apply Qeq_bool_neq in E. rewrite Qgeb_le. tauto.
Qed.

Section Area.
Variable ar : Arith.
Variable self : BoxFilter.
Variables height width : Q.
Variable σ : Store.
Variable a : loc.
Variable L : Labels.
Variables xmin ymin xmax ymax : Z.
Variable c : Cols.
Variables lower upper d : Q.
Hypothesis Hcheck : check_overlap self = true.
Hypothesis Hcrit : overlap_criterion self = "area".
Hypothesis Hbounds : get_bounds (overlap_bounds self) = Ok (lower, upper).
Hypothesis Hd : border_d (border_pixels self) = Some d.
Hypothesis Ha : σ !! a = Some L.
Hypothesis Hc : resolve_cols (ncols L) xmin ymin xmax ymax = Ok c.

Lemma area_mask :
  exists extra : Store,
    overlap_block ar self a (Some height) (Some width) xmin ymin xmax ymax
      (np_ones (length (rows L))) σ
    = (Ok (area_row ar c d lower upper (py_sub ar height 1)
             (py_sub ar width 1) <$> rows L),
       σ ++ extra).
Proof using Hcheck Hcrit Hbounds Hd Ha Hc.
  destruct (overlap_block_run ar self (Some height) (Some width) σ a L
              xmin ymin xmax ymax (fun _ => true) Ha) as [extra Hrun].
  exists extra. rewrite np_ones_rows, Hrun. f_equal.
  unfold overlap_plan. rewrite Hcheck, Hbounds. simpl.
  rewrite Hcrit. simpl. unfold area_plan.
  destruct (resolve_cols_inv _ _ _ _ _ _ Hc) as (-> & -> & -> & ->).
  simpl. rewrite Hd. simpl. by destruct c.
Qed.

Hypothesis Hrect : rectangular L.
Hypothesis Hxy : xy_apart c.

(** The mask of the area branch, row by row, in the words of the
    specification. *)
Lemma area_mask_rows :
  exists (mask : list bool) (extra : Store),
    overlap_block ar self a (Some height) (Some width) xmin ymin xmax ymax
      (np_ones (length (rows L))) σ = (Ok mask, σ ++ extra)
    /\ length mask = length (rows L)
    /\ forall (i : nat) (r : list Q),
         rows L !! i = Some r ->
         exists b : bool,
           mask !! i = Some b
           /\ (b = true <->
               spec_area_accepts ar lower upper
                 (spec_box_area ar d (fld (ixmin c) r) (fld (iymin c) r)
                    (fld (ixmax c) r) (fld (iymax c) r))
                 (spec_intersection_area ar d (py_sub ar height 1)
                    (py_sub ar width 1) (fld (ixmin c) r)
                    (fld (iymin c) r) (fld (ixmax c) r) (fld (iymax c) r))).
Proof using Hcheck Hcrit Hbounds Hd Ha Hrect Hc Hxy.
  destruct area_mask as [extra Hrun].
  exists (area_row ar c d lower upper (py_sub ar height 1)
            (py_sub ar width 1) <$> rows L), extra.
  split; [exact Hrun|]. split; [by rewrite length_fmap|].
  intros i r Hr. rewrite list_lookup_fmap, Hr. simpl.
  eexists. split; [reflexivity|].
  assert (Hlen : length r = ncols L).
  { unfold rectangular in Hrect. rewrite Forall_forall in Hrect.
    apply Hrect. eapply list_elem_of_lookup_2. exact Hr. }
  destruct (resolve_cols_lt _ _ _ _ _ _ Hc) as (L1 & L2 & L3 & L4).
  rewrite area_row_spec, intersection_row_spec by (done || lia).
  reflexivity.
Qed.
End Area.

(** C1. With the criterion [area] the overlap check accepts a box exactly
    when [intersectionArea <= upper * boxArea] and, for [lower = 0],
    [intersectionArea > 0], otherwise [intersectionArea >= lower * boxArea];
    both areas take the border adjustment [d] of the border convention,
    the intersection area after clipping the coordinates to the region,
    all in the arithmetic of the run; with [lower = 0] a box whose
    intersection area is zero is rejected. The intersection area is not
    the area of the intersection with the region: with the window
    [(0, 1)], the boxes [(-7, -7, -4, -4)] and [(500, 310, 520, 330)],
    which have nothing in common with the region 300 x 480, are clipped to
    a corner of it and, under the conventions [include] and [exclude], get
    the intersection area [(0 + d) * (0 + d) = 1] and are accepted; under
    [half] they are rejected. *)
Theorem area_accepts :
  (forall (ar : Arith) (self : BoxFilter) (height width : Q) (σ : Store)
          (a : loc) (L : Labels) (xmin ymin xmax ymax : Z) (c : Cols)
          (lower upper d : Q),
      check_overlap self = true ->
      overlap_criterion self = "area" ->
      get_bounds (overlap_bounds self) = Ok (lower, upper) ->
      border_d (border_pixels self) = Some d ->
      σ !! a = Some L ->
      rectangular L ->
      lookup_cols self = Ok (xmin, ymin, xmax, ymax) ->
      resolve_cols (ncols L) xmin ymin xmax ymax = Ok c ->
      xy_apart c ->
      exists (mask : list bool) (extra : Store),
        overlap_block ar self a (Some height) (Some width)
          xmin ymin xmax ymax (np_ones (length (rows L))) σ
        = (Ok mask, σ ++ extra)
        /\ length mask = length (rows L)
        /\ forall (i : nat) (r : list Q),
             rows L !! i = Some r ->
             let box_area :=
               spec_box_area ar d (fld (ixmin c) r) (fld (iymin c) r)
                 (fld (ixmax c) r) (fld (iymax c) r) in
             let intersection :=
               spec_intersection_area ar d (py_sub ar height 1)
                 (py_sub ar width 1) (fld (ixmin c) r) (fld (iymin c) r)
                 (fld (ixmax c) r) (fld (iymax c) r) in
             (mask !! i = Some true <->
              spec_area_accepts ar lower upper box_area intersection)
             /\ (lower == 0 -> intersection == 0 ->
                 mask !! i = Some false))
  /\ (intersection_area 1 [0; 0; 479; 299] [-7; -7; -4; -4] == 0
      /\ intersection_area 1 [0; 0; 479; 299] [500; 310; 520; 330] == 0
      /\ intersection_area (-1) [0; 0; 479; 299] [-7; -7; -4; -4] == 0
      /\ intersection_area (-1) [0; 0; 479; 299] [500; 310; 520; 330] == 0)
  /\ call exact_arith (area_filter "include") 0 (Some region_height)
       (Some region_width) [outside_labels]
     = (Ok 3%nat,
        [outside_labels; outside_labels;
         mkLabels 5 [[1; 0; 0; 0; 0]; [2; 479; 299; 479; 299]];
         outside_labels])
  /\ call exact_arith (area_filter "exclude") 0 (Some region_height)
       (Some region_width) [outside_labels]
     = (Ok 3%nat,
        [outside_labels; outside_labels;
         mkLabels 5 [[1; 0; 0; 0; 0]; [2; 479; 299; 479; 299]];
         outside_labels])
  /\ call exact_arith (area_filter "half") 0 (Some region_height)
       (Some region_width) [outside_labels]
     = (Ok 3%nat,
        [outside_labels; outside_labels;
         mkLabels 5 [[1; 0; 0; 0; 0]; [2; 479; 299; 479; 299]];
         mkLabels 5 []]).
Proof.
  split; [|split; [|split; [|split]]].
  - intros ar self height width σ a L xmin ymin xmax ymax c lower upper d
      Hcheck Hcrit Hbounds Hd Ha Hrect _ Hc Hxy.
    destruct (area_mask_rows ar self height width σ a L xmin ymin xmax ymax c
                lower upper d Hcheck Hcrit Hbounds Hd Ha Hc Hrect Hxy)
      as (mask & extra & Hrun & Hlen & Hrows).
    exists mask, extra. split; [exact Hrun|]. split; [exact Hlen|].
    intros i r Hr box_area intersection.
    destruct (Hrows i r Hr) as (b & -> & Hb). fold box_area intersection in Hb.
    split; [rewrite <- Hb; split; congruence|].
    intros Hlo Hzero. destruct b; [|reflexivity].
    destruct (proj1 Hb eq_refl) as (_ & Hpos & _). specialize (Hpos Hlo).
    rewrite Hzero in Hpos. by apply Qlt_irrefl in Hpos.
  - repeat split; vm_compute; reflexivity.
  - vm_compute. reflexivity.
  - vm_compute. reflexivity.
  - vm_compute. reflexivity.
Qed.

Lemma area_accepts_witness :
  exists (mask : list bool) (extra : Store),
    overlap_block exact_arith (area_filter "half") 0 (Some 300) (Some 480)
      1 2 3 4 (np_ones 2) [edge_labels] = (Ok mask, [edge_labels] ++ extra)
    /\ mask !! 0%nat = Some true
    /\ mask !! 1%nat = Some false.
Proof.
  assert (Hrect : rectangular edge_labels) by (repeat constructor).
  assert (Hxy : xy_apart (mkCols 1 2 3 4)) by (repeat split; discriminate).
  destruct (proj1 area_accepts exact_arith (area_filter "half") 300 480
              [edge_labels] 0%nat edge_labels 1%Z 2%Z 3%Z 4%Z
              (mkCols 1 2 3 4) 0 1 0
              eq_refl eq_refl eq_refl eq_refl eq_refl Hrect eq_refl eq_refl
              Hxy)
    as (mask & extra & Hrun & _ & Hrows).
  exists mask, extra. split; [exact Hrun|]. split.
  - destruct (Hrows 0%nat [0; 470; 100; 490; 200] eq_refl) as (Hiff & _).
    apply Hiff. repeat split; intros; vm_compute; discriminate.
  - destruct (Hrows 1%nat [1; -5; -5; -4; -4] eq_refl) as (_ & Hzero).
    apply Hzero; vm_compute; reflexivity.
Defined.

(** ** Construction *)


(** On a pair, a generator or another object the constructor raises
    [ValueError] exactly for another object, for a pair with
    [lower > upper] and for an unknown criterion. *)
Lemma init_pair (co cm cd : bool) (crit : string) (lo hi ma : Q)
    (lf : gmap string Z) (bp : string) :
  init co cm cd crit (BoundsSeq [lo; hi]) ma lf bp =
  if Qgtb lo hi then Raise ValueError
  else if criterion_known crit
       then Ok (mkBoxFilter co cm cd crit (BoundsSeq [lo; hi]) ma lf bp)
       else Raise ValueError.
Proof.
  unfold init. simpl. destruct (Qgtb lo hi); [done|]. simpl.
  by destruct (criterion_known crit).
Qed.

Lemma init_generator (co cm cd : bool) (crit : string) (g : BoundGenerator)
    (ma : Q) (lf : gmap string Z) (bp : string) :
  init co cm cd crit (BoundsGen g) ma lf bp =
  if criterion_known crit
  then Ok (mkBoxFilter co cm cd crit (BoundsGen g) ma lf bp)
  else Raise ValueError.
Proof. unfold init. simpl. by destruct (criterion_known crit). Qed.

Lemma init_other (co cm cd : bool) (crit : string) (ma : Q)
    (lf : gmap string Z) (bp : string) :
  init co cm cd crit BoundsOther ma lf bp = Raise ValueError.
Proof. reflexivity. Qed.

Lemma criterion_known_iff (crit : string) :
  criterion_known crit = true <->
  crit = "iou" \/ crit = "area" \/ crit = "center_point".
Proof.
  unfold criterion_known. rewrite !orb_true_iff, !String.eqb_eq. tauto.
Qed.

(** C5. The constructor accepts a tuple of three numbers as
    [overlap_bounds]: only the type of the value and the order of its first
    two elements are tested, not its length. The filter it returns fails
    when it is applied with the overlap check, at the unpacking of the
    bounds; a tuple of one number makes the constructor raise [IndexError]. *)
Theorem init_accepts_triple :
  init true true true "center_point" (BoundsSeq [3 # 10; 1; 2]) 16
    default_labels_format "half"
  = Ok (mkBoxFilter true true true "center_point" (BoundsSeq [3 # 10; 1; 2])
          16 default_labels_format "half")
  /\ call exact_arith (mkBoxFilter true true true "center_point"
             (BoundsSeq [3 # 10; 1; 2]) 16 default_labels_format "half")
       0 (Some region_height) (Some region_width) [scenario_labels]
     = (Raise ValueError, [scenario_labels; scenario_labels])
  /\ init true true true "center_point" (BoundsSeq [3 # 10]) 16
       default_labels_format "half"
     = Raise IndexError.
Proof. repeat split; vm_compute; reflexivity. Qed.

(** ** Region dimensions *)







(** * Further properties of the constructor and of the call *)

(** ** Outcomes of the constructor *)

(** X1. The constructor returns a filter, holding its arguments as given,
    exactly when the criterion is one of the three names and the bounds
    are a [BoundGenerator] or a list or tuple of at least two numbers
    whose first does not exceed the second; it raises [IndexError] exactly
    for a list or tuple of fewer than two numbers, and [ValueError] in
    every other case. *)
Theorem init_outcome (co cm cd : bool) (crit : string) (ob : Bounds) (ma : Q)
    (lf : gmap string Z) (bp : string) :
  (forall self : BoxFilter,
      init co cm cd crit ob ma lf bp = Ok self <->
      self = mkBoxFilter co cm cd crit ob ma lf bp
      /\ (crit = "iou" \/ crit = "area" \/ crit = "center_point")
      /\ ((exists g, ob = BoundsGen g)
          \/ exists lo hi t, ob = BoundsSeq (lo :: hi :: t) /\ lo <= hi))
  /\ (init co cm cd crit ob ma lf bp = Raise IndexError <->
      exists l, ob = BoundsSeq l /\ (length l < 2)%nat)
  /\ (forall e : PyErr,
        init co cm cd crit ob ma lf bp = Raise e ->
        e = ValueError \/ e = IndexError).
Proof.
  assert (Hgt : forall lo hi, Qgtb lo hi = false <-> lo <= hi).
  { intros lo hi. unfold Qgtb. rewrite negb_false_iff. apply Qle_bool_iff. }
  unfold init. destruct ob as [[|lo [|hi t]]|g|]; simpl.
  - split; [|split].
    + intros self. split; [discriminate|].
      intros (_ & _ & [[g [=]]|(lo & hi & t & [=] & _)]).
    + split; [intros _; exists []; split; [done|simpl; lia]|done].
    + intros e [= <-]. by right.
  - split; [|split].
    + intros self. split; [discriminate|].
      intros (_ & _ & [[g [=]]|(lo' & hi & t & [=] & _)]).
    + split; [intros _; exists [lo]; split; [done|simpl; lia]|done].
    + intros e [= <-]. by right.
  - destruct (Qgtb lo hi) eqn:E; simpl.
    + split; [|split].
      * intros self. split; [discriminate|].
        intros (_ & _ & [[g [=]]|(lo' & hi' & t' & [= <- <- <-] & Hle)]).
        apply Hgt in Hle. congruence.
      * split; [discriminate|]. intros (l & [= <-] & Hl). simpl in Hl. lia.
      * intros e [= <-]. by left.
    + apply Hgt in E.
      destruct (criterion_known crit) eqn:K; simpl.
      * apply criterion_known_iff in K. split; [|split].
        -- intros self. split.
           ++ intros [= <-]. split; [done|]. split; [done|].
              right. by exists lo, hi, t.
           ++ by intros (-> & _ & _).
        -- split; [discriminate|]. intros (l & [= <-] & Hl). simpl in Hl. lia.
        -- discriminate.
      * split; [|split].
        -- intros self. split; [discriminate|].
           intros (_ & K' & _). apply criterion_known_iff in K'. congruence.
        -- split; [discriminate|]. intros (l & [= <-] & Hl). simpl in Hl. lia.
        -- intros e [= <-]. by left.
  - destruct (criterion_known crit) eqn:K; simpl.
    + apply criterion_known_iff in K. split; [|split].
      * intros self. split.
        -- intros [= <-]. split; [done|]. split; [done|]. left. by exists g.
        -- by intros (-> & _ & _).
      * split; [discriminate|]. by intros (l & [=] & _).
      * discriminate.
    + split; [|split].
      * intros self. split; [discriminate|].
        intros (_ & K' & _). apply criterion_known_iff in K'. congruence.
      * split; [discriminate|]. by intros (l & [=] & _).
      * intros e [= <-]. by left.
  - split; [|split].
    + intros self. split; [discriminate|].
      intros (_ & _ & [[g [=]]|(lo & hi & t & [=] & _)]).
    + split; [discriminate|]. by intros (l & [=] & _).
    + intros e [= <-]. by left.
Qed.

(** ** Exceptions of the call *)

Lemma bind_ext {A B : Type} (c : M A) (k1 k2 : A -> M B) (σ : Store) :
  (forall a σ', k1 a σ' = k2 a σ') -> (c ≫= k1) σ = (c ≫= k2) σ.
Proof.
  intros H. rewrite !bind_run. destruct (c σ) as [[a|e] σ']; [apply H|done].
Qed.

Lemma dict_getitem_error (d : gmap string Z) (key : string) (e : PyErr) :
  dict_getitem d key = Raise e -> e = KeyError.
Proof. unfold dict_getitem. destruct (d !! key); congruence. Qed.

Lemma lookup_cols_error (self : BoxFilter) (e : PyErr) :
  lookup_cols self = Raise e -> e = KeyError.
Proof.
  unfold lookup_cols.
  destruct (dict_getitem (labels_format self) "xmin") eqn:E1; simpl;
    [|intros [= <-]; by eapply dict_getitem_error].
  destruct (dict_getitem (labels_format self) "ymin") eqn:E2; simpl;
    [|intros [= <-]; by eapply dict_getitem_error].
  destruct (dict_getitem (labels_format self) "xmax") eqn:E3; simpl;
    [|intros [= <-]; by eapply dict_getitem_error].
  destruct (dict_getitem (labels_format self) "ymax") eqn:E4; simpl;
    [discriminate|intros [= <-]; by eapply dict_getitem_error].
Qed.

Lemma lookup_cols_missing (self : BoxFilter) (key : string) :
  key = "xmin" \/ key = "ymin" \/ key = "xmax" \/ key = "ymax" ->
  labels_format self !! key = None ->
  lookup_cols self = Raise KeyError.
Proof.
  intros Hkey Hnone.
  destruct (lookup_cols self) as [[[[xmin ymin] xmax] ymax]|e] eqn:E.
  - exfalso. unfold lookup_cols, dict_getitem in E.
    destruct (labels_format self !! "xmin") eqn:E1; [|discriminate].
    destruct (labels_format self !! "ymin") eqn:E2; [|discriminate].
    destruct (labels_format self !! "xmax") eqn:E3; [|discriminate].
    destruct (labels_format self !! "ymax") eqn:E4; [|discriminate].
    destruct Hkey as [-> | [-> | [-> | ->]]]; congruence.
  - by rewrite (lookup_cols_error _ _ E).
Qed.

(** The mask up to the overlap block, with the store it leaves. *)
Lemma requirements_met_lookup_error (ar : Arith) (self : BoxFilter)
    (h w : option Q) (σ : Store) (a : loc) (e : PyErr) :
  lookup_cols self = Raise e ->
  requirements_met ar self a h w σ = (Raise e, σ).
Proof.
  unfold lookup_cols, requirements_met. intros H.
  destruct (dict_getitem (labels_format self) "xmin"); simpl in *;
    [|by injection H as <-].
  destruct (dict_getitem (labels_format self) "ymin"); simpl in *;
    [|by injection H as <-].
  destruct (dict_getitem (labels_format self) "xmax"); simpl in *;
    [|by injection H as <-].
  destruct (dict_getitem (labels_format self) "ymax"); simpl in *;
    [discriminate|by injection H as <-].
Qed.

Lemma requirements_met_blocks (ar : Arith) (self : BoxFilter) (h w : option Q)
    (σ : Store) (a : loc) (L : Labels) (xmin ymin xmax ymax : Z) :
  σ !! a = Some L ->
  lookup_cols self = Ok (xmin, ymin, xmax, ymax) ->
  requirements_met ar self a h w σ =
  match degenerate_plan self (ncols L) xmin ymin xmax ymax (fun _ => true) with
  | Raise e => (Raise e, σ)
  | Ok q1 =>
      match min_area_plan ar self (ncols L) xmin ymin xmax ymax q1 with
      | Raise e => (Raise e, σ)
      | Ok q2 =>
          overlap_block ar self a h w xmin ymin xmax ymax (q2 <$> rows L) σ
      end
  end.
Proof.
  intros Ha Hks. unfold lookup_cols in Hks. unfold requirements_met.
  destruct (dict_getitem (labels_format self) "xmin") as [k1|];
    [|discriminate].
  destruct (dict_getitem (labels_format self) "ymin") as [k2|];
    [|discriminate].
  destruct (dict_getitem (labels_format self) "xmax") as [k3|];
    [|discriminate].
  destruct (dict_getitem (labels_format self) "ymax") as [k4|];
    [|discriminate].
  simpl in Hks. injection Hks as -> -> -> ->.
  run_reads Ha. rewrite (shape0_run _ _ _ Ha), np_ones_rows. run_reads Ha.
  rewrite (degenerate_block_run _ _ _ _ Ha).
  destruct (degenerate_plan self (ncols L) xmin ymin xmax ymax _) as [q1|e];
    [|reflexivity].
  run_reads Ha. rewrite (min_area_block_run ar _ _ _ _ Ha).
  destruct (min_area_plan ar self (ncols L) xmin ymin xmax ymax q1) as [q2|e];
    reflexivity.
Qed.

(** X2. Whatever checks are enabled, none included, a call with a layout
    that lacks one of the keys ['xmin'], ['ymin'], ['xmax'], ['ymax']
    raises [KeyError]; the copy of the labels is all it has made. *)
Theorem call_missing_key (ar : Arith) (self : BoxFilter) (h w : option Q)
    (σ : Store) (labels : loc) (L : Labels) (key : string) :
  σ !! labels = Some L ->
  key = "xmin" \/ key = "ymin" \/ key = "xmax" \/ key = "ymax" ->
  labels_format self !! key = None ->
  call ar self labels h w σ = (Raise KeyError, σ ++ [L]).
Proof.
  intros Ha Hkey Hnone. unfold call.
  rewrite bind_run, (np_copy_run _ _ _ Ha), bind_run.
  by rewrite (requirements_met_lookup_error ar self h w _ _ KeyError
                (lookup_cols_missing self key Hkey Hnone)).
Qed.

Lemma call_missing_key_witness :
  call exact_arith (mkBoxFilter false false false "center_point" default_overlap_bounds
          16 (delete "ymax" default_labels_format) "half") 0 None None
    [scenario_labels]
  = (Raise KeyError, [scenario_labels] ++ [scenario_labels]).
Proof.
  apply (call_missing_key exact_arith _ None None [scenario_labels] 0%nat
           scenario_labels "ymax").
  - reflexivity.
  - right. right. right. reflexivity.
  - vm_compute. reflexivity.
Defined.

Lemma resolve_cols_error (n : nat) (xmin ymin xmax ymax : Z) (e : PyErr) :
  resolve_cols n xmin ymin xmax ymax = Raise e -> e = IndexError.
Proof.
  unfold resolve_cols.
  destruct (axis_index n xmax) eqn:E1; simpl;
    [|intros [= <-]; by eapply axis_index_error].
  destruct (axis_index n xmin) eqn:E2; simpl;
    [|intros [= <-]; by eapply axis_index_error].
  destruct (axis_index n ymax) eqn:E3; simpl;
    [|intros [= <-]; by eapply axis_index_error].
  destruct (axis_index n ymin) eqn:E4; simpl;
    [discriminate|intros [= <-]; by eapply axis_index_error].
Qed.

Lemma filter_all {A : Type} (l : list A) :
  List.filter (fun _ => true) l = l.
Proof. induction l as [|x l IH]; simpl; congruence. Qed.

(** X3. With the three checks disabled a call returns a new table equal to
    the input, whatever the region dimensions, the bounds and the border
    convention are, and even when the layout names columns the table does
    not have; it needs the four keys of the layout all the same. *)
Theorem call_without_checks_copies (ar : Arith) (self : BoxFilter)
    (h w : option Q) (σ : Store) (labels : loc) (L : Labels)
    (xmin ymin xmax ymax : Z) :
  check_overlap self = false ->
  check_min_area self = false ->
  check_degenerate self = false ->
  σ !! labels = Some L ->
  lookup_cols self = Ok (xmin, ymin, xmax, ymax) ->
  call ar self labels h w σ = (Ok (S (length σ)), σ ++ [L; L]).
Proof.
  intros Hov Hma Hdeg Ha Hks. unfold call.
  rewrite bind_run, (np_copy_run _ _ _ Ha), bind_run.
  rewrite (requirements_met_blocks ar self h w (σ ++ [L]) (length σ) L
             xmin ymin xmax ymax) by (by apply list_lookup_middle || done).
  unfold degenerate_plan, min_area_plan, overlap_block.
  rewrite Hov, Hma, Hdeg, ret_run.
  rewrite (bool_index_run _ _ L) by (by apply list_lookup_middle).
  rewrite select_fmap, filter_all, length_app, <- app_assoc. simpl.
  destruct L. simpl. do 2 f_equal. lia.
Qed.

Lemma call_without_checks_copies_witness :
  call exact_arith (mkBoxFilter false false false "area" (BoundsGen mkBoundGenerator)
          16 (<["xmin" := 7%Z]> default_labels_format) "none") 0 None None
    [scenario_labels]
  = (Ok 2%nat, [scenario_labels] ++ [scenario_labels; scenario_labels]).
Proof.
  apply (call_without_checks_copies exact_arith _ None None [scenario_labels] 0%nat
           scenario_labels 7 2 3 4); reflexivity.
Defined.

(** X4. With the degenerate check or the minimum-area check enabled, a
    call whose layout names a column the table does not have raises
    [IndexError], on the empty table too; the copy of the labels is all
    it has made. *)
Theorem call_bad_column (ar : Arith) (self : BoxFilter) (h w : option Q)
    (σ : Store) (labels : loc) (L : Labels) (xmin ymin xmax ymax : Z)
    (e : PyErr) :
  σ !! labels = Some L ->
  lookup_cols self = Ok (xmin, ymin, xmax, ymax) ->
  resolve_cols (ncols L) xmin ymin xmax ymax = Raise e ->
  check_degenerate self = true \/ check_min_area self = true ->
  call ar self labels h w σ = (Raise IndexError, σ ++ [L]).
Proof.
  intros Ha Hks Hc Hflag. unfold call.
  rewrite (resolve_cols_error _ _ _ _ _ _ Hc) in Hc.
  rewrite bind_run, (np_copy_run _ _ _ Ha), bind_run.
  rewrite (requirements_met_blocks ar self h w (σ ++ [L]) (length σ) L
             xmin ymin xmax ymax) by (by apply list_lookup_middle || done).
  unfold degenerate_plan, min_area_plan. rewrite Hc.
  destruct (check_degenerate self); [reflexivity|].
  destruct Hflag as [Hflag|Hflag]; [discriminate|]. by rewrite Hflag.
Qed.

Lemma call_bad_column_witness :
  call exact_arith (mkBoxFilter false true false "center_point" default_overlap_bounds
          16 (<["xmin" := 5%Z]> default_labels_format) "half") 0 None None
    [mkLabels 5 []]
  = (Raise IndexError, [mkLabels 5 []] ++ [mkLabels 5 []]).
Proof.
  apply (call_bad_column exact_arith _ None None [mkLabels 5 []] 0%nat (mkLabels 5 [])
           5 2 3 4 IndexError).
  - reflexivity.
  - reflexivity.
  - reflexivity.
  - right. reflexivity.
Defined.

(** X5. Whether a call raises, and which exception, depends on the
    configuration, the region dimensions and the number of columns of the
    table, never on its rows: what a call raises on one table it raises
    on every table with as many columns, the empty one included. *)
Theorem call_raises_regardless_of_rows (ar : Arith) (self : BoxFilter)
    (h w : option Q) (σ1 σ2 σ1' : Store) (l1 l2 : loc) (L1 L2 : Labels)
    (e : PyErr) :
  σ1 !! l1 = Some L1 ->
  σ2 !! l2 = Some L2 ->
  ncols L1 = ncols L2 ->
  call ar self l1 h w σ1 = (Raise e, σ1') ->
  exists σ2' : Store, call ar self l2 h w σ2 = (Raise e, σ2').
Proof.
  intros H1 H2 Hn Hcall.
  destruct (call_run ar self h w σ1 l1 L1 H1) as [extra1 Hrun1].
  destruct (call_run ar self h w σ2 l2 L2 H2) as [extra2 Hrun2].
  rewrite Hcall in Hrun1. rewrite <- Hn in Hrun2.
  destruct (row_plan ar self (ncols L1) h w) as [p|e0]; [discriminate|].
  injection Hrun1 as -> _. eauto.
Qed.

Lemma call_raises_regardless_of_rows_witness :
  exists σ2' : Store,
    call exact_arith default_filter 0 None (Some region_width) [mkLabels 5 []]
    = (Raise TypeError, σ2').
Proof.
  apply (call_raises_regardless_of_rows exact_arith default_filter None
           (Some region_width) [scenario_labels] [mkLabels 5 []]
           [scenario_labels; scenario_labels] 0%nat 0%nat scenario_labels
           (mkLabels 5 []) TypeError).
  - reflexivity.
  - reflexivity.
  - reflexivity.
  - vm_compute. reflexivity.
Defined.

Lemma call_raise_from_plan (ar : Arith) (self : BoxFilter) (h w : option Q)
    (σ : Store) (labels : loc) (L : Labels) (e : PyErr) :
  σ !! labels = Some L ->
  row_plan ar self (ncols L) h w = Raise e ->
  exists σ' : Store, call ar self labels h w σ = (Raise e, σ').
Proof.
  intros Ha Hp. destruct (call_run ar self h w σ labels L Ha) as [extra Hrun].
  rewrite Hp in Hrun. eauto.
Qed.

Lemma row_plan_overlap_raises (ar : Arith) (self : BoxFilter) (n : nat)
    (h w : option Q) :
  (forall xmin ymin xmax ymax q, exists e,
      overlap_plan ar self n h w xmin ymin xmax ymax q = Raise e) ->
  exists e, row_plan ar self n h w = Raise e.
Proof.
  intros Hov. unfold row_plan.
  destruct (lookup_cols self) as [[[[xmin ymin] xmax] ymax]|e]; [|by eauto].
  simpl.
  destruct (degenerate_plan self n xmin ymin xmax ymax _) as [q1|e];
    [|by eauto]. simpl.
  destruct (min_area_plan ar self n xmin ymin xmax ymax q1) as [q2|e];
    [|by eauto]. simpl.
  apply Hov.
Qed.

Lemma row_plan_overlap_raise (ar : Arith) (self : BoxFilter) (n : nat)
    (h w : option Q) (xmin ymin xmax ymax : Z) (c : Cols) (e : PyErr) :
  lookup_cols self = Ok (xmin, ymin, xmax, ymax) ->
  resolve_cols n xmin ymin xmax ymax = Ok c ->
  (forall q, overlap_plan ar self n h w xmin ymin xmax ymax q = Raise e) ->
  row_plan ar self n h w = Raise e.
Proof.
  intros Hks Hc Hov. unfold row_plan, degenerate_plan, min_area_plan.
  rewrite Hks. simpl. rewrite Hc.
  destruct (check_degenerate self), (check_min_area self); simpl; apply Hov.
Qed.

(** X6. A filter whose bounds are a [BoundGenerator] cannot be applied
    with the overlap check, whatever the criterion: every call raises, and
    it raises [TypeError], from calling the generator, once the layout
    names four columns of the table. *)
Theorem call_with_generator_raises (ar : Arith) (self : BoxFilter)
    (h w : option Q) (σ : Store) (labels : loc) (L : Labels)
    (g : BoundGenerator) (xmin ymin xmax ymax : Z) (c : Cols) :
  overlap_bounds self = BoundsGen g ->
  check_overlap self = true ->
  σ !! labels = Some L ->
  (exists (e : PyErr) (σ' : Store), call ar self labels h w σ = (Raise e, σ'))
  /\ (lookup_cols self = Ok (xmin, ymin, xmax, ymax) ->
      resolve_cols (ncols L) xmin ymin xmax ymax = Ok c ->
      exists σ' : Store, call ar self labels h w σ = (Raise TypeError, σ')).
Proof.
  intros Hb Hcheck Ha.
  assert (Hov : forall xmin ymin xmax ymax q,
             overlap_plan ar self (ncols L) h w xmin ymin xmax ymax q
             = Raise TypeError).
  { intros. unfold overlap_plan. by rewrite Hcheck, Hb. }
  split.
  - destruct (row_plan_overlap_raises ar self (ncols L) h w) as [e He];
      [by eauto|].
    exists e. by apply (call_raise_from_plan ar _ _ _ _ _ L).
  - intros Hks Hc. apply (call_raise_from_plan ar _ _ _ _ _ L); [done|].
    by apply (row_plan_overlap_raise ar _ _ _ _ xmin ymin xmax ymax c).
Qed.

Lemma call_with_generator_raises_witness :
  (exists (e : PyErr) (σ' : Store),
     call exact_arith (mkBoxFilter true true true "center_point"
             (BoundsGen mkBoundGenerator) 16 default_labels_format "half")
       0 (Some region_height) (Some region_width) [scenario_labels]
     = (Raise e, σ'))
  /\ (exists σ' : Store,
        call exact_arith (mkBoxFilter true true true "center_point"
                (BoundsGen mkBoundGenerator) 16 default_labels_format "half")
          0 (Some region_height) (Some region_width) [scenario_labels]
        = (Raise TypeError, σ')).
Proof.
  destruct (call_with_generator_raises exact_arith
              (mkBoxFilter true true true "center_point"
                 (BoundsGen mkBoundGenerator) 16 default_labels_format "half")
              (Some region_height) (Some region_width) [scenario_labels]
              0%nat scenario_labels mkBoundGenerator 1 2 3 4
              (mkCols 1 2 3 4) eq_refl eq_refl eq_refl) as [Hany Htype].
  split; [exact Hany|]. apply Htype; reflexivity.
Defined.

(** X7. A filter whose bounds are a list or tuple of another length than
    two cannot be applied with the overlap check: every call raises, and
    it raises [ValueError], from the unpacking of the bounds, once the
    layout names four columns of the table. *)
Theorem call_with_misshaped_bounds_raises (ar : Arith) (self : BoxFilter)
    (h w : option Q) (σ : Store) (labels : loc) (L : Labels) (l : list Q)
    (xmin ymin xmax ymax : Z) (c : Cols) :
  overlap_bounds self = BoundsSeq l ->
  length l <> 2%nat ->
  check_overlap self = true ->
  σ !! labels = Some L ->
  (exists (e : PyErr) (σ' : Store), call ar self labels h w σ = (Raise e, σ'))
  /\ (lookup_cols self = Ok (xmin, ymin, xmax, ymax) ->
      resolve_cols (ncols L) xmin ymin xmax ymax = Ok c ->
      exists σ' : Store, call ar self labels h w σ = (Raise ValueError, σ')).
Proof.
  intros Hb Hlen Hcheck Ha.
  assert (Hov : forall xmin ymin xmax ymax q,
             overlap_plan ar self (ncols L) h w xmin ymin xmax ymax q
             = Raise ValueError).
  { intros. unfold overlap_plan. rewrite Hcheck, Hb.
    destruct l as [|x [|y [|z t]]]; simpl in *; congruence. }
  split.
  - destruct (row_plan_overlap_raises ar self (ncols L) h w) as [e He];
      [by eauto|].
    exists e. by apply (call_raise_from_plan ar _ _ _ _ _ L).
  - intros Hks Hc. apply (call_raise_from_plan ar _ _ _ _ _ L); [done|].
    by apply (row_plan_overlap_raise ar _ _ _ _ xmin ymin xmax ymax c).
Qed.

Lemma call_with_misshaped_bounds_raises_witness :
  (exists (e : PyErr) (σ' : Store),
     call exact_arith (mkBoxFilter true true true "iou" (BoundsSeq [3 # 10; 1; 2]) 16
             default_labels_format "half")
       0 (Some region_height) (Some region_width) [scenario_labels]
     = (Raise e, σ'))
  /\ (exists σ' : Store,
        call exact_arith (mkBoxFilter true true true "iou" (BoundsSeq [3 # 10; 1; 2]) 16
                default_labels_format "half")
          0 (Some region_height) (Some region_width) [scenario_labels]
        = (Raise ValueError, σ')).
Proof.
  assert (Hlen : length [3 # 10; 1; 2] <> 2%nat) by discriminate.
  destruct (call_with_misshaped_bounds_raises exact_arith
              (mkBoxFilter true true true "iou" (BoundsSeq [3 # 10; 1; 2]) 16
                 default_labels_format "half")
              (Some region_height) (Some region_width) [scenario_labels]
              0%nat scenario_labels [3 # 10; 1; 2] 1 2 3 4
              (mkCols 1 2 3 4) eq_refl Hlen eq_refl eq_refl)
    as [Hany Hvalue].
  split; [exact Hany|]. apply Hvalue; reflexivity.
Defined.

(** X8. The border convention is not validated by the constructor. With
    the criterion [area] and a border convention other than ['half'],
    ['include'], ['exclude'], every call with the overlap check raises,
    and it raises [UnboundLocalError], from the unbound [d], once the
    bounds are a pair and the layout names four columns of the table. *)
Theorem call_area_unknown_border_raises (ar : Arith) (self : BoxFilter)
    (h w : option Q) (σ : Store) (labels : loc) (L : Labels) (lower upper : Q)
    (xmin ymin xmax ymax : Z) (c : Cols) :
  overlap_criterion self = "area" ->
  border_d (border_pixels self) = None ->
  check_overlap self = true ->
  σ !! labels = Some L ->
  (exists (e : PyErr) (σ' : Store), call ar self labels h w σ = (Raise e, σ'))
  /\ (get_bounds (overlap_bounds self) = Ok (lower, upper) ->
      lookup_cols self = Ok (xmin, ymin, xmax, ymax) ->
      resolve_cols (ncols L) xmin ymin xmax ymax = Ok c ->
      exists σ' : Store,
        call ar self labels h w σ = (Raise UnboundLocalError, σ')).
Proof.
  intros Hcrit Hd Hcheck Ha. split.
  - destruct (row_plan_overlap_raises ar self (ncols L) h w) as [e He].
    { intros x0 y0 x1 y1 q. unfold overlap_plan. rewrite Hcheck.
      destruct (get_bounds (overlap_bounds self)) as [[lo up]|e];
        [|by eauto]. simpl. rewrite Hcrit. simpl. unfold area_plan.
      destruct (axis_index (ncols L) x1); [|by eauto]. simpl.
      destruct (axis_index (ncols L) x0); [|by eauto]. simpl.
      rewrite Hd. simpl. eauto. }
    exists e. by apply (call_raise_from_plan ar _ _ _ _ _ L).
  - intros Hb Hks Hc. apply (call_raise_from_plan ar _ _ _ _ _ L); [done|].
    apply (row_plan_overlap_raise ar _ _ _ _ xmin ymin xmax ymax c); [done..|].
    intros q. unfold overlap_plan. rewrite Hcheck, Hb. simpl.
    rewrite Hcrit. simpl. unfold area_plan.
    destruct (resolve_cols_inv _ _ _ _ _ _ Hc) as (-> & -> & _ & _).
    simpl. by rewrite Hd.
Qed.

Lemma call_area_unknown_border_raises_witness :
  (exists (e : PyErr) (σ' : Store),
     call exact_arith (area_filter "Half") 0 (Some region_height) (Some region_width)
       [scenario_labels] = (Raise e, σ'))
  /\ (exists σ' : Store,
        call exact_arith (area_filter "Half") 0 (Some region_height) (Some region_width)
          [scenario_labels] = (Raise UnboundLocalError, σ')).
Proof.
  destruct (call_area_unknown_border_raises exact_arith (area_filter "Half")
              (Some region_height) (Some region_width) [scenario_labels]
              0%nat scenario_labels 0 1 1 2 3 4 (mkCols 1 2 3 4)
              eq_refl eq_refl eq_refl eq_refl) as [Hany Hunbound].
  split; [exact Hany|]. apply Hunbound; reflexivity.
Defined.

(** X9. With the criterion [center_point] the bounds and the border
    convention have no influence: two filters that differ only in them,
    both with bounds that unpack into a pair, give the same outcome on
    every call. *)
Theorem center_point_ignores_bounds_and_border (ar : Arith) (co cm cd : bool)
    (ma : Q) (lf : gmap string Z) (b1 b2 : Bounds) (bp1 bp2 : string)
    (lo1 up1 lo2 up2 : Q) (h w : option Q) (σ : Store) (labels : loc) :
  get_bounds b1 = Ok (lo1, up1) ->
  get_bounds b2 = Ok (lo2, up2) ->
  call ar (mkBoxFilter co cm cd "center_point" b1 ma lf bp1) labels h w σ
  = call ar (mkBoxFilter co cm cd "center_point" b2 ma lf bp2) labels h w σ.
Proof.
  intros H1 H2. unfold call. apply bind_ext. intros a σ1.
  rewrite !bind_run.
  replace (requirements_met ar
             (mkBoxFilter co cm cd "center_point" b1 ma lf bp1) a h w σ1)
    with (requirements_met ar
            (mkBoxFilter co cm cd "center_point" b2 ma lf bp2) a h w σ1);
    [reflexivity|].
  unfold requirements_met. simpl.
  do 7 (apply bind_ext; intros ? ?).
  unfold overlap_block. simpl. destruct co; [|reflexivity].
  by rewrite !bind_run, !lift_run, H1, H2.
Qed.

Lemma center_point_ignores_bounds_and_border_witness :
  call exact_arith (mkBoxFilter true true true "center_point" (BoundsSeq [3 # 10; 1]) 16
          default_labels_format "half") 0
    (Some region_height) (Some region_width) [scenario_labels]
  = call exact_arith (mkBoxFilter true true true "center_point" (BoundsSeq [0; 0]) 16
            default_labels_format "none") 0
      (Some region_height) (Some region_width) [scenario_labels].
Proof.
  apply (center_point_ignores_bounds_and_border exact_arith true true true 16
           default_labels_format (BoundsSeq [3 # 10; 1]) (BoundsSeq [0; 0])
           "half" "none" (3 # 10) 1 0 0); reflexivity.
Defined.

(** ** Rows, columns and the order of filters *)

Lemma fld_insert (i j : nat) (x : Q) (r : list Q) :
  (j < length r)%nat ->
  fld i (<[j:=x]> r) = if decide (i = j) then x else fld i r.
Proof.
  intros H. destruct (decide (i = j)) as [->|Hne].
  - by apply fld_insert_eq.
  - by apply fld_insert_ne.
Qed.

Lemma area_row_same_box (ar : Arith) (c : Cols) (d lower upper hmax wmax : Q)
    (r r' : list Q) (n : nat) :
  (ixmin c < n /\ iymin c < n /\ ixmax c < n /\ iymax c < n)%nat ->
  length r = n -> length r' = n ->
  same_box c r r' ->
  area_row ar c d lower upper hmax wmax r = area_row ar c d lower upper hmax wmax r'.
Proof.
  intros (L1 & L2 & L3 & L4) Hr Hr' (E1 & E2 & E3 & E4).
  unfold area_row, intersection_row, box_area_row, clipped_row.
  rewrite !fld_insert by (rewrite ?length_insert; lia).
  by rewrite E1, E2, E3, E4.
Qed.

Lemma overlap_plan_same_box (ar : Arith) (self : BoxFilter) (n : nat)
    (h w : option Q) (xmin ymin xmax ymax : Z) (c : Cols)
    (q p : list Q -> bool) (r r' : list Q) :
  resolve_cols n xmin ymin xmax ymax = Ok c ->
  overlap_plan ar self n h w xmin ymin xmax ymax q = Ok p ->
  length r = n -> length r' = n ->
  same_box c r r' ->
  q r = q r' -> p r = p r'.
Proof.
  intros Hc Hp Hr Hr' Hsame Hq.
  pose proof (resolve_cols_lt _ _ _ _ _ _ Hc) as Hlt.
  destruct (resolve_cols_inv _ _ _ _ _ _ Hc) as (A1 & A2 & A3 & A4).
  destruct Hsame as (E1 & E2 & E3 & E4).
  revert Hp. unfold overlap_plan, iou_plan, area_plan, center_point_plan.
  rewrite Hc, A1, A2, A3, A4. simpl.
  plan_cases; intros [= <-]; try done; rewrite Hq; f_equal.
  - unfold iou_row, iou_value, corners. by rewrite E1, E2, E3, E4.
  - replace (mkCols (ixmin c) (iymin c) (ixmax c) (iymax c)) with c
      by (by destruct c).
    by apply (area_row_same_box ar c _ _ _ _ _ r r' n).
  - unfold center_point_row, center_x, center_y. by rewrite E1, E2, E3, E4.
Qed.

Lemma row_plan_same_box (ar : Arith) (self : BoxFilter) (n : nat)
    (h w : option Q) (xmin ymin xmax ymax : Z) (c : Cols) (p : list Q -> bool)
    (r r' : list Q) :
  lookup_cols self = Ok (xmin, ymin, xmax, ymax) ->
  resolve_cols n xmin ymin xmax ymax = Ok c ->
  row_plan ar self n h w = Ok p ->
  length r = n -> length r' = n ->
  same_box c r r' ->
  p r = p r'.
Proof.
  intros Hks Hc Hp Hr Hr' Hsame.
  destruct (row_plan_inv ar _ _ _ _ _ Hp)
    as (x0 & y0 & x1 & y1 & q1 & q2 & Hks' & Hq1 & Hq2 & Hq3).
  rewrite Hks in Hks'. injection Hks' as <- <- <- <-.
  apply (overlap_plan_same_box ar self n h w xmin ymin xmax ymax c q2 p);
    try done.
  destruct Hsame as (E1 & E2 & E3 & E4).
  revert Hq1 Hq2. unfold degenerate_plan, min_area_plan. rewrite Hc. simpl.
  destruct (check_degenerate self), (check_min_area self);
    intros [= <-] [= <-]; try done;
    unfold non_degenerate_row, min_area_row, box_product; by rewrite E1, E2, E3, E4.
Qed.

Lemma elem_of_filter_bool {A : Type} (p : A -> bool) (l : list A) (x : A) :
  x ∈ List.filter p l <-> x ∈ l /\ p x = true.
Proof. rewrite !list_elem_of_In. apply filter_In. Qed.

(** X10. Acceptance looks at the four coordinates of a box and at nothing
    else: of two rows of the input with the same coordinates, whatever
    their class id and their other columns, either both are in the
    returned table or neither is. *)
Theorem acceptance_depends_on_coordinates (ar : Arith) (self : BoxFilter)
    (h w : option Q) (σ σ' : Store) (labels out : loc) (L : Labels)
    (xmin ymin xmax ymax : Z) (c : Cols) :
  σ !! labels = Some L ->
  rectangular L ->
  lookup_cols self = Ok (xmin, ymin, xmax, ymax) ->
  resolve_cols (ncols L) xmin ymin xmax ymax = Ok c ->
  call ar self labels h w σ = (Ok out, σ') ->
  exists L' : Labels,
    σ' !! out = Some L'
    /\ forall r r' : list Q,
         r ∈ rows L -> r' ∈ rows L -> same_box c r r' ->
         (r ∈ rows L' <-> r' ∈ rows L').
Proof.
  intros Ha Hrect Hks Hc Hcall.
  destruct (call_ok_lookup ar _ _ _ _ _ _ _ _ Ha Hcall) as (p & Hp & Hout).
  eexists. split; [exact Hout|]. simpl.
  intros r r' Hr Hr' Hsame. rewrite !elem_of_filter_bool.
  unfold rectangular in Hrect. rewrite Forall_forall in Hrect.
  rewrite (row_plan_same_box ar self (ncols L) h w xmin ymin xmax ymax c p r r')
    by (done || by apply Hrect).
  tauto.
Qed.

Lemma acceptance_depends_on_coordinates_witness :
  exists L' : Labels,
    [twin_labels; twin_labels; twin_labels] !! 2%nat = Some L'
    /\ ([0; 10; 10; 50; 50; 7] ∈ rows L' <-> [3; 10; 10; 50; 50; 9] ∈ rows L').
Proof.
  assert (Hrect : rectangular twin_labels) by (repeat constructor).
  assert (Hcall : call exact_arith default_filter 0 (Some region_height)
                    (Some region_width) [twin_labels]
                  = (Ok 2%nat, [twin_labels; twin_labels; twin_labels]))
    by (vm_compute; reflexivity).
  destruct (acceptance_depends_on_coordinates exact_arith default_filter
              (Some region_height) (Some region_width) [twin_labels] _
              0%nat 2%nat twin_labels 1 2 3 4 (mkCols 1 2 3 4)
              eq_refl Hrect eq_refl eq_refl Hcall)
    as (L' & HL' & Hsame).
  exists L'. split; [exact HL'|].
  apply Hsame.
  - apply list_elem_of_here.
  - apply list_elem_of_further, list_elem_of_here.
  - repeat split.
Defined.

Lemma filter_filter_bool {A : Type} (p q : A -> bool) (l : list A) :
  List.filter p (List.filter q l) = List.filter (fun x => q x && p x) l.
Proof.
  induction l as [|x l IH]; [done|]. simpl.
  destruct (q x); simpl; [|done]. destruct (p x); by rewrite IH.
Qed.

(** X11. Two filters, each with its own configuration and region, can be
    applied in either order: when [f] and then [g] return a table, so do
    [g] and then [f], and the two tables are equal. *)
Theorem calls_commute (ar : Arith) (f g : BoxFilter) (hf wf hg wg : option Q)
    (σ σ1 σ2 : Store) (labels o1 o2 : loc) (L : Labels) :
  σ !! labels = Some L ->
  call ar f labels hf wf σ = (Ok o1, σ1) ->
  call ar g o1 hg wg σ1 = (Ok o2, σ2) ->
  exists (o1' o2' : loc) (σ1' σ2' : Store) (T : Labels),
    call ar g labels hg wg σ = (Ok o1', σ1')
    /\ call ar f o1' hf wf σ1' = (Ok o2', σ2')
    /\ σ2 !! o2 = Some T
    /\ σ2' !! o2' = Some T.
Proof.
  intros Ha Hf Hg.
  destruct (call_ok_lookup ar _ _ _ _ _ _ _ _ Ha Hf) as (pf & Hpf & Ho1).
  destruct (call_ok_lookup ar _ _ _ _ _ _ _ _ Ho1 Hg) as (pg & Hpg & Ho2).
  simpl in Hpg, Ho2.
  destruct (call_on_plan ar g hg wg σ labels L pg Ha Hpg)
    as (o1' & σ1' & Hg' & Ho1').
  destruct (call_on_plan ar f hf wf σ1' o1' _ pf Ho1' Hpf)
    as (o2' & σ2' & Hf' & Ho2').
  simpl in Ho2'.
  exists o1', o2', σ1', σ2'. eexists. repeat (split; [eassumption|]).
  rewrite Ho2'. do 2 f_equal. rewrite !filter_filter_bool.
  apply List.filter_ext. intros r. apply andb_comm.
Qed.

Lemma calls_commute_witness :
  exists (o1' o2' : loc) (σ1' σ2' : Store) (T : Labels),
    call exact_arith default_filter 0 (Some region_height) (Some region_width)
      [scenario_labels] = (Ok o1', σ1')
    /\ call exact_arith size_filter o1' None None σ1' = (Ok o2', σ2')
    /\ [scenario_labels; scenario_labels;
        mkLabels 5 [[0; 10; 10; 50; 50]];
        mkLabels 5 [[0; 10; 10; 50; 50]];
        mkLabels 5 [[0; 10; 10; 50; 50]]] !! 4%nat = Some T
    /\ σ2' !! o2' = Some T.
Proof.
  apply (calls_commute exact_arith size_filter default_filter None None
           (Some region_height) (Some region_width) [scenario_labels]
           [scenario_labels; scenario_labels;
            mkLabels 5 [[0; 10; 10; 50; 50]]] _ 0%nat 2%nat 4%nat
           scenario_labels).
  - reflexivity.
  - vm_compute. reflexivity.
  - vm_compute. reflexivity.
Defined.

Lemma row_plan_only_degenerate (ar : Arith) (self : BoxFilter) (n : nat)
    (h w : option Q) (xmin ymin xmax ymax : Z) :
  lookup_cols self = Ok (xmin, ymin, xmax, ymax) ->
  row_plan ar (only_degenerate self) n h w
  = degenerate_plan self n xmin ymin xmax ymax (fun _ => true).
Proof.
  intros Hks. unfold row_plan, lookup_cols in *. simpl. rewrite Hks. simpl.
  unfold degenerate_plan, min_area_plan, overlap_plan. simpl.
  destruct (check_degenerate self); [|done].
  by destruct (resolve_cols n xmin ymin xmax ymax).
Qed.

Lemma row_plan_only_min_area (ar : Arith) (self : BoxFilter) (n : nat)
    (h w : option Q) (xmin ymin xmax ymax : Z) :
  lookup_cols self = Ok (xmin, ymin, xmax, ymax) ->
  row_plan ar (only_min_area self) n h w
  = min_area_plan ar self n xmin ymin xmax ymax (fun _ => true).
Proof.
  intros Hks. unfold row_plan, lookup_cols in *. simpl. rewrite Hks. simpl.
  unfold degenerate_plan, min_area_plan, overlap_plan. simpl.
  destruct (check_min_area self); [|done].
  by destruct (resolve_cols n xmin ymin xmax ymax).
Qed.

Lemma row_plan_only_overlap (ar : Arith) (self : BoxFilter) (n : nat)
    (h w : option Q) (xmin ymin xmax ymax : Z) :
  lookup_cols self = Ok (xmin, ymin, xmax, ymax) ->
  row_plan ar (only_overlap self) n h w
  = overlap_plan ar self n h w xmin ymin xmax ymax (fun _ => true).
Proof.
  intros Hks. unfold row_plan, lookup_cols in *. simpl. rewrite Hks. simpl.
  unfold degenerate_plan, min_area_plan. simpl. reflexivity.
Qed.

Lemma degenerate_plan_factor (self : BoxFilter) (n : nat)
    (xmin ymin xmax ymax : Z) (q p : list Q -> bool) :
  degenerate_plan self n xmin ymin xmax ymax q = Ok p ->
  exists p0 : list Q -> bool,
    degenerate_plan self n xmin ymin xmax ymax (fun _ => true) = Ok p0
    /\ forall r, p r = q r && p0 r.
Proof.
  unfold degenerate_plan. plan_cases; intros [= <-]; eexists;
    (split; [reflexivity|]); intros r; simpl; [done|by rewrite andb_true_r].
Qed.

(** X12. A call that returns a table can be taken apart: applying in
    sequence the filter with only the degenerate check of the
    configuration, the one with only its minimum-area check and the one
    with only its overlap check returns the same table. *)
Theorem call_decomposes (ar : Arith) (self : BoxFilter) (h w : option Q)
    (σ σ' : Store) (labels out : loc) (L : Labels) :
  σ !! labels = Some L ->
  call ar self labels h w σ = (Ok out, σ') ->
  exists (o1 o2 o3 : loc) (σ1 σ2 σ3 : Store) (T : Labels),
    call ar (only_degenerate self) labels h w σ = (Ok o1, σ1)
    /\ call ar (only_min_area self) o1 h w σ1 = (Ok o2, σ2)
    /\ call ar (only_overlap self) o2 h w σ2 = (Ok o3, σ3)
    /\ σ' !! out = Some T
    /\ σ3 !! o3 = Some T.
Proof.
  intros Ha Hcall.
  destruct (call_ok_lookup ar _ _ _ _ _ _ _ _ Ha Hcall) as (p & Hp & Hout).
  destruct (row_plan_inv ar _ _ _ _ _ Hp)
    as (xmin & ymin & xmax & ymax & q1 & q2 & Hks & Hq1 & Hq2 & Hq3).
  destruct (min_area_plan_factor ar _ _ _ _ _ _ _ _ Hq2) as (a0 & Ha0 & Hfa).
  destruct (overlap_plan_factor ar _ _ _ _ _ _ _ _ _ _ Hq3) as (v0 & Hv0 & Hfv).
  destruct (call_on_plan ar (only_degenerate self) h w σ labels L q1 Ha)
    as (o1 & σ1 & Hc1 & Ho1).
  { by rewrite (row_plan_only_degenerate ar _ _ _ _ _ _ _ _ Hks). }
  destruct (call_on_plan ar (only_min_area self) h w σ1 o1 _ a0 Ho1)
    as (o2 & σ2 & Hc2 & Ho2).
  { by rewrite (row_plan_only_min_area ar _ _ _ _ _ _ _ _ Hks). }
  destruct (call_on_plan ar (only_overlap self) h w σ2 o2 _ v0 Ho2)
    as (o3 & σ3 & Hc3 & Ho3).
  { by rewrite (row_plan_only_overlap ar _ _ _ _ _ _ _ _ Hks). }
  simpl in *.
  exists o1, o2, o3, σ1, σ2, σ3. eexists.
  repeat (split; [eassumption|]).
  rewrite Ho3. do 2 f_equal. rewrite !filter_filter_bool.
  apply List.filter_ext. intros r. rewrite Hfv, Hfa.
  by rewrite andb_assoc.
Qed.

Lemma call_decomposes_witness :
  exists (o1 o2 o3 : loc) (σ1 σ2 σ3 : Store) (T : Labels),
    call exact_arith (only_degenerate default_filter) 0 (Some region_height)
      (Some region_width) [scenario_labels] = (Ok o1, σ1)
    /\ call exact_arith (only_min_area default_filter) o1 (Some region_height)
         (Some region_width) σ1 = (Ok o2, σ2)
    /\ call exact_arith (only_overlap default_filter) o2 (Some region_height)
         (Some region_width) σ2 = (Ok o3, σ3)
    /\ [scenario_labels; scenario_labels;
        mkLabels 5 [[0; 10; 10; 50; 50]]] !! 2%nat = Some T
    /\ σ3 !! o3 = Some T.
Proof.
  apply (call_decomposes exact_arith default_filter (Some region_height)
           (Some region_width) [scenario_labels] _ 0%nat 2%nat
           scenario_labels).
  - reflexivity.
  - vm_compute. reflexivity.
Defined.

(** ** Single checks at their edges *)



(** ** The area criterion on boxes without extent *)

Lemma exact_zero_laws : zero_laws exact_arith.
Proof.
  unfold zero_laws. simpl. repeat split.
  - intros lo hi x y H. unfold clip1, np_maximum.
    assert (E : Qle_bool x lo = Qle_bool y lo) by (by rewrite H).
    rewrite E. destruct (Qle_bool y lo); [reflexivity|].
    unfold np_minimum.
    assert (E' : Qle_bool hi x = Qle_bool hi y) by (by rewrite H).
    rewrite E'. by destruct (Qle_bool hi y).
  - intros x y H. lra.
  - intros z H. lra.
  - intros x y [H|H]; nra.
  - intros k z H. nra.
Qed.

(** X16. With the criterion [area] under the convention [half] and a
    lower bound other than 0, a box without width or without height,
    [xmax = xmin] or [ymax = ymin], is accepted by the overlap check
    wherever it lies: its box area and its intersection area are both 0,
    and [0 >= lower * 0] and [0 <= upper * 0] hold. This needs of the
    arithmetic no more than [x - x = 0], [0 + 0 = 0] and [0 * x = 0]. *)
Theorem area_accepts_flat_boxes (ar : Arith) (self : BoxFilter)
    (height width : Q) (σ : Store) (a : loc) (L : Labels)
    (xmin ymin xmax ymax : Z) (c : Cols) (lower upper : Q) :
  zero_laws ar ->
  check_overlap self = true ->
  overlap_criterion self = "area" ->
  get_bounds (overlap_bounds self) = Ok (lower, upper) ->
  border_pixels self = "half" ->
  ~ lower == 0 ->
  σ !! a = Some L ->
  rectangular L ->
  lookup_cols self = Ok (xmin, ymin, xmax, ymax) ->
  resolve_cols (ncols L) xmin ymin xmax ymax = Ok c ->
  xy_apart c ->
  exists (mask : list bool) (extra : Store),
    overlap_block ar self a (Some height) (Some width) xmin ymin xmax ymax
      (np_ones (length (rows L))) σ = (Ok mask, σ ++ extra)
    /\ forall (i : nat) (r : list Q),
         rows L !! i = Some r ->
         fld (ixmax c) r == fld (ixmin c) r
         \/ fld (iymax c) r == fld (iymin c) r ->
         mask !! i = Some true.
Proof.
  intros (Zclip & Zsub & Zadd & Zmul & Zscale)
    Hcheck Hcrit Hbounds Hhalf Hlower Ha Hrect _ Hc Hxy.
  assert (Hd : border_d (border_pixels self) = Some 0) by (by rewrite Hhalf).
  destruct (area_mask_rows ar self height width σ a L xmin ymin xmax ymax c
              lower upper 0 Hcheck Hcrit Hbounds Hd Ha Hc Hrect Hxy)
    as (mask & extra & Hrun & _ & Hrows).
  exists mask, extra. split; [exact Hrun|].
  intros i r Hr Hflat.
  destruct (Hrows i r Hr) as (b & -> & Hb). f_equal. apply Hb.
  set (A := spec_box_area ar 0 (fld (ixmin c) r) (fld (iymin c) r)
              (fld (ixmax c) r) (fld (iymax c) r)).
  set (I := spec_intersection_area ar 0 (py_sub ar height 1)
              (py_sub ar width 1) (fld (ixmin c) r) (fld (iymin c) r)
              (fld (ixmax c) r) (fld (iymax c) r)).
  assert (HA : A == 0).
  { unfold A, spec_box_area. apply Zmul.
    destruct Hflat as [E|E]; [left|right]; by apply Zadd, Zsub. }
  assert (HI : I == 0).
  { unfold I, spec_intersection_area, spec_box_area. apply Zmul.
    destruct Hflat as [E|E]; [left|right]; by apply Zadd, Zsub, Zclip. }
  unfold spec_area_accepts.
  rewrite HI, (Zscale upper A HA), (Zscale lower A HA).
  split; [discriminate|]. split; [done|]. intros _. discriminate.
Qed.

Lemma area_accepts_flat_boxes_witness :
  exists (mask : list bool) (extra : Store),
    overlap_block exact_arith area_default_filter 0 (Some 300) (Some 480)
      1 2 3 4 (np_ones 3) [area_labels] = (Ok mask, [area_labels] ++ extra)
    /\ mask !! 1%nat = Some true.
Proof.
  assert (Hrect : rectangular area_labels) by (repeat constructor).
  assert (Hxy : xy_apart (mkCols 1 2 3 4)) by (repeat split; discriminate).
  assert (Hlower : ~ 3 # 10 == 0) by discriminate.
  destruct (area_accepts_flat_boxes exact_arith area_default_filter 300 480
              [area_labels] 0%nat area_labels 1 2 3 4 (mkCols 1 2 3 4)
              (3 # 10) 1 exact_zero_laws
              eq_refl eq_refl eq_refl eq_refl Hlower eq_refl Hrect eq_refl
              eq_refl Hxy) as (mask & extra & Hrun & Hin).
  exists mask, extra. split; [exact Hrun|].
  apply (Hin 1%nat [1; 20; 20; 20; 40] eq_refl).
  left. vm_compute. reflexivity.
Defined.

(** ** The three checks together *)



Lemma overlap_plan_any_mask (ar : Arith) (self : BoxFilter) (n : nat)
    (h w : option Q) (xmin ymin xmax ymax : Z) (q q' p : list Q -> bool) :
  overlap_plan ar self n h w xmin ymin xmax ymax q = Ok p ->
  exists p' : list Q -> bool,
    overlap_plan ar self n h w xmin ymin xmax ymax q' = Ok p'.
Proof.
  unfold overlap_plan, iou_plan, area_plan, center_point_plan.
  plan_cases; intros _; eauto.
Qed.

Lemma row_plan_without_min_area (ar : Arith) (self : BoxFilter) (n : nat)
    (h w : option Q) (xmin ymin xmax ymax : Z) :
  lookup_cols self = Ok (xmin, ymin, xmax, ymax) ->
  row_plan ar (without_min_area self) n h w
  = (q ← degenerate_plan self n xmin ymin xmax ymax (fun _ => true);
     overlap_plan ar self n h w xmin ymin xmax ymax q).
Proof.
  intros Hks. unfold row_plan, lookup_cols in *. simpl. rewrite Hks. simpl.
  unfold degenerate_plan, min_area_plan. simpl.
  destruct (check_degenerate self); [|reflexivity].
  by destruct (resolve_cols n xmin ymin xmax ymax).
Qed.

Lemma exact_sign_laws : sign_laws exact_arith.
Proof.
  unfold sign_laws. simpl. split.
  - intros x y H. lra.
  - intros x y Hx Hy. nra.
Qed.

(** X19. With the degenerate check enabled and a [min_area] of 0 or less,
    the minimum-area check removes nothing, in every arithmetic in which
    the difference of a larger and a smaller number is positive and the
    product of two positive numbers is not negative (floating point,
    integers that do not overflow): a call returns the same table with
    this check enabled as with it switched off. *)
Theorem min_area_check_redundant (ar : Arith) (self : BoxFilter)
    (h w : option Q) (σ σ' : Store) (labels out : loc) (L : Labels) :
  sign_laws ar ->
  check_degenerate self = true ->
  min_area self <= 0 ->
  σ !! labels = Some L ->
  call ar self labels h w σ = (Ok out, σ') ->
  exists (out2 : loc) (σ2 : Store) (T : Labels),
    call ar (without_min_area self) labels h w σ = (Ok out2, σ2)
    /\ σ' !! out = Some T
    /\ σ2 !! out2 = Some T.
Proof.
  intros [Ssub Smul] Hdeg Hma Ha Hcall.
  destruct (call_ok_lookup ar _ _ _ _ _ _ _ _ Ha Hcall) as (p & Hp & Hout).
  destruct (row_plan_inv ar _ _ _ _ _ Hp)
    as (xmin & ymin & xmax & ymax & q1 & q2 & Hks & Hq1 & Hq2 & Hq3).
  destruct (overlap_plan_any_mask ar _ _ _ _ _ _ _ _ _ q1 _ Hq3) as [p' Hp'].
  destruct (overlap_plan_factor ar _ _ _ _ _ _ _ _ _ _ Hq3)
    as (v0 & Hv0 & Hfv).
  destruct (overlap_plan_factor ar _ _ _ _ _ _ _ _ _ _ Hp')
    as (v1 & Hv1 & Hfv').
  rewrite Hv0 in Hv1. injection Hv1 as <-.
  assert (Hp2 : row_plan ar (without_min_area self) (ncols L) h w = Ok p').
  { rewrite (row_plan_without_min_area ar _ _ _ _ _ _ _ _ Hks), Hq1.
    exact Hp'. }
  destruct (call_on_plan ar (without_min_area self) h w σ labels L _ Ha Hp2)
    as (out2 & σ2 & Hcall2 & Hout2).
  exists out2, σ2. eexists. split; [exact Hcall2|]. split; [exact Hout|].
  rewrite Hout2. do 2 f_equal. apply List.filter_ext.
  intros r. rewrite Hfv, Hfv'. f_equal.
  destruct (degenerate_plan_on _ _ _ _ _ _ _ _ Hdeg Hq1) as (c & Hc & ->).
  revert Hq2. unfold min_area_plan. rewrite Hc. simpl.
  destruct (check_min_area self); intros [= <-]; [|done].
  simpl. destruct (non_degenerate_row c r) eqn:E; [|done].
  simpl. symmetry. unfold non_degenerate_row in E.
  apply andb_prop in E as [Ex Ey]. apply Qgtb_lt in Ex, Ey.
  unfold min_area_row. apply Qgeb_le. unfold box_product.
  apply Qle_trans with 0; [exact Hma|]. by apply Smul; apply Ssub.
Qed.

Lemma min_area_check_redundant_witness :
  exists (out2 : loc) (σ2 : Store) (T : Labels),
    call exact_arith
      (without_min_area
         (mkBoxFilter true true true "center_point"
            default_overlap_bounds 0 default_labels_format "half"))
      0 (Some region_height) (Some region_width) [scenario_labels]
    = (Ok out2, σ2)
    /\ [scenario_labels; scenario_labels;
        mkLabels 5 [[0; 10; 10; 50; 50]; [1; 0; 0; 2; 2]]] !! 2%nat = Some T
    /\ σ2 !! out2 = Some T.
Proof.
  assert (Hma : 0 <= 0) by discriminate.
  apply (min_area_check_redundant exact_arith
           (mkBoxFilter true true true "center_point"
              default_overlap_bounds 0 default_labels_format "half")
           (Some region_height) (Some region_width) [scenario_labels] _
           0%nat 2%nat scenario_labels exact_sign_laws eq_refl Hma eq_refl).
  vm_compute. reflexivity.
Defined.
